(** * BankGPT chat backend: context assembly, caching and cost tracking

    A shallow embedding of the JavaScript classes of the integration plan
    ([TokenOptimizer], [CacheStrategy], [CostTracker]) and of the technical
    architecture ([OpenAIService], [CacheService]), followed by the
    properties their specification states about them.

    Conventions of the embedding:
    - a JavaScript string is a [string] of 8-bit code units, read as the code
      points U+0000..U+00FF; on that range [toLowerCase], [\w], [\s] and
      [trim] are written out exactly as ECMAScript defines them; where a
      property depends on characters beyond that range, a message is the
      list of its UTF-16 code units ([Utf16]);
    - a JavaScript number that holds a count (a length, a token estimate) is
      a [Z]; a number that holds money is an IEEE 754 binary64 [float], the
      very type of a JavaScript number;
    - an [async] method that can reject returns a [Completion]: the value it
      resolves to, or the error it throws. *)

From Stdlib Require Import ZArith Ascii String List Bool Lia Floats Uint63.
From stdpp Require Import base option list strings gmap.

Local Open Scope string_scope.
Local Open Scope list_scope.
Local Open Scope Z_scope.

(* Decimal literals such as 0.0005 denote the nearest binary64 value, as they
   do in JavaScript. *)
Set Warnings "-inexact-float".

(** ** JavaScript primitives used by the classes *)

Module JS.

(** The result of a method that may throw: [Return v] or [Throw e]. *)
Inductive Completion (E A : Type) : Type :=
| Return (v : A)
| Throw (e : E).
Arguments Return {E A} v.
Arguments Throw {E A} e.

Definition bind {E A B} (c : Completion E A) (k : A -> Completion E B)
  : Completion E B :=
  match c with
  | Return v => k v
  | Throw e => Throw e
  end.

(** [try { body } catch (error) { handler(error) }] *)
Definition try_catch {E F A} (body : Completion E A)
    (handler : E -> Completion F A) : Completion F A :=
  match body with
  | Return v => Return v
  | Throw e => handler e
  end.

Definition code (c : ascii) : Z := Z.of_N (N_of_ascii c).

(** [\w] without the [u] and [i] flags: [A-Za-z0-9_]. *)
Definition isWordChar (c : ascii) : bool :=
  let n := code c in
  ((65 <=? n) && (n <=? 90)) || ((97 <=? n) && (n <=? 122))
  || ((48 <=? n) && (n <=? 57)) || (n =? 95).

(** [\s], and the characters [trim] removes, below U+0100: TAB, LF, VT,
    FF, CR, SPACE and NO-BREAK SPACE. *)
Definition isSpaceChar (c : ascii) : bool :=
  let n := code c in
  ((9 <=? n) && (n <=? 13)) || (n =? 32) || (n =? 160).

(** The lower-case mapping below U+0100: A-Z, and the Latin-1 capitals
    U+00C0..U+00DE except the multiplication sign U+00D7, move up by 32. *)
Definition lowerChar (c : ascii) : ascii :=
  let n := code c in
  if ((65 <=? n) && (n <=? 90))
     || ((192 <=? n) && (n <=? 222) && negb (n =? 215))
  then ascii_of_N (Z.to_N (n + 32))
  else c.

Fixpoint mapString (f : ascii -> ascii) (s : string) : string :=
  match s with
  | EmptyString => EmptyString
  | String c r => String (f c) (mapString f r)
  end.

Fixpoint filterString (p : ascii -> bool) (s : string) : string :=
  match s with
  | EmptyString => EmptyString
  | String c r => if p c then String c (filterString p r) else filterString p r
  end.

(** [s.toLowerCase()] on a string of code units below U+0100;
    [Utf16.toLowerCase] reaches beyond them. *)
Definition toLowerCase (s : string) : string := mapString lowerChar s.

(** [s.replace(/[^\w\s]/g, '')] *)
Definition stripNonWordNonSpace (s : string) : string :=
  filterString (fun c => isWordChar c || isSpaceChar c) s.

(** [s.replace(/\s+/g, ' ')]: every maximal run of white space becomes one
    SPACE. [inRun] records that the previous character was white space. *)
Fixpoint collapseFrom (inRun : bool) (s : string) : string :=
  match s with
  | EmptyString => EmptyString
  | String c r =>
      if isSpaceChar c
      then if inRun then collapseFrom true r
           else String " "%char (collapseFrom true r)
      else String c (collapseFrom false r)
  end.

Definition collapseWhitespace (s : string) : string := collapseFrom false s.

Fixpoint trimStart (s : string) : string :=
  match s with
  | EmptyString => EmptyString
  | String c r => if isSpaceChar c then trimStart r else s
  end.

Fixpoint trimEnd (s : string) : string :=
  match s with
  | EmptyString => EmptyString
  | String c r =>
      match trimEnd r with
      | EmptyString => if isSpaceChar c then EmptyString else String c EmptyString
      | r' => String c r'
      end
  end.

(** [s.trim()] *)
Definition trim (s : string) : string := trimEnd (trimStart s).

(** [s.includes(k)]: [k] occurs in [s] as a contiguous substring. *)
Fixpoint includes (s k : string) : bool :=
  String.prefix k s
  || match s with
     | EmptyString => false
     | String _ r => includes r k
     end.

(** [parts.join(sep)] on an array of strings. *)
Fixpoint join (sep : string) (parts : list string) : string :=
  match parts with
  | [] => ""
  | [p] => p
  | p :: rest => p +:+ sep +:+ join sep rest
  end.

(** [Array.prototype.slice(start, end)]: a negative index counts from the
    end, and both indices are clamped to the array. [None] is an omitted
    [end]. The array itself is left as it was. *)
Definition relativeIndex (len i : Z) : Z :=
  if i <? 0 then Z.max (len + i) 0 else Z.min i len.

Definition slice {A} (l : list A) (start : Z) (stop : option Z) : list A :=
  let len := Z.of_nat (length l) in
  let k := relativeIndex len start in
  let final := match stop with
               | None => len
               | Some e => relativeIndex len e
               end in
  take (Z.to_nat (final - k)) (drop (Z.to_nat k) l).

(** [String.prototype.repeat], for building inputs of a given length. *)
Fixpoint repeatString (s : string) (n : nat) : string :=
  match n with
  | O => ""
  | S n' => s +:+ repeatString s n'
  end.

End JS.

(** ** Conversation turns *)

Inductive Role := system | user | assistant.

(** A chat message [{ role, content }]. [content] is [None] when the property
    is missing, which [extractTopics] guards against with [?.]. *)
Record Turn := mkTurn { role : Role; content : option string }.

(** ** class TokenOptimizer *)

Module TokenOptimizer.

(** [Math.ceil(text.length / 4)]. A length is an integer below 2^53 and a
    division by 4 is exact in binary64, so the ceiling is the integer one. *)
Definition estimateTokens (text : string) : Z :=
  (Z.of_nat (String.length text) + 3) / 4.

(** The keyword table of [extractTopics], in the order [Object.entries]
    enumerates it. *)
Definition bankingKeywords : list (string * list string) :=
  [ ("savings", ["savings"; "save"; "interest"]);
    ("credit", ["credit"; "score"; "report"]);
    ("investment", ["invest"; "portfolio"; "stocks"]);
    ("budget", ["budget"; "expenses"; "spending"]);
    ("loans", ["loan"; "mortgage"; "debt"]) ].

(** [topics.add(topic)] on a [Set], which keeps insertion order. *)
Definition setAdd (topic : string) (topics : list string) : list string :=
  if existsb (String.eqb topic) topics then topics else topics ++ [topic].

(** [exchange.content?.toLowerCase() || ''] *)
Definition exchangeText (exchange : Turn) : string :=
  match content exchange with
  | Some c => JS.toLowerCase c
  | None => ""
  end.

(** [keywords.some(keyword => text.includes(keyword))] *)
Definition mentions (text : string) (keywords : list string) : bool :=
  existsb (fun keyword => JS.includes text keyword) keywords.

(** The inner [forEach] over the table, for one exchange. *)
Definition addTopicsOf (topics : list string) (exchange : Turn) : list string :=
  fold_left
    (fun acc entry =>
       if mentions (exchangeText exchange) (snd entry)
       then setAdd (fst entry) acc else acc)
    bankingKeywords topics.

(** [Array.from(topics)] after the outer [forEach]. *)
Definition extractTopics (history : list Turn) : list string :=
  fold_left addTopicsOf history [].

Definition summaryPrefix : string := "Previous conversation covered: ".

Definition summaryTurn (older : list Turn) : Turn :=
  mkTurn system (Some (summaryPrefix +:+ JS.join ", " (extractTopics older))).

Definition summarizeHistory (history : list Turn) : list Turn :=
  if Z.of_nat (length history) <=? 2 then history
  else
    let recent := JS.slice history (-2) None in
    let older := JS.slice history 0 (Some (-2)) in
    summaryTurn older :: recent.

Section OptimizePrompt.

(** [formatHistory] is called by [optimizePrompt] and defined nowhere in
    the repository: it stays a parameter. *)
Variable formatHistory : list Turn -> string.

(** The [while] loop of [optimizePrompt], by recursion on the history it
    shortens: [rest] is [optimizedHistory.slice(1)]. It returns the last
    [currentTokens] with the history left. *)
Fixpoint truncateLoop (maxTokens fixedTokens currentTokens : Z)
    (optimizedHistory : list Turn) : Z * list Turn :=
  match optimizedHistory with
  | [] => (currentTokens, [])
  | _ :: rest =>
      if currentTokens >? maxTokens
      then truncateLoop maxTokens fixedTokens
             (fixedTokens + estimateTokens (formatHistory rest)) rest
      else (currentTokens, optimizedHistory)
  end.

(** The body of [optimizePrompt] for a given value of its local constant
    [maxTokens]. *)
Definition optimizePromptWithin (maxTokens : Z) (systemPrompt : string)
    (conversationHistory : list Turn) (userMessage : string) : list Turn :=
  let fixedTokens := estimateTokens systemPrompt + estimateTokens userMessage in
  let '(currentTokens, optimizedHistory) :=
    truncateLoop maxTokens fixedTokens fixedTokens conversationHistory in
  if currentTokens >? maxTokens
  then summarizeHistory optimizedHistory
  else optimizedHistory.

(** [const maxTokens = 3500; // Leave room for response] *)
Definition maxTokens : Z := 3500.

Definition optimizePrompt := optimizePromptWithin maxTokens.

End OptimizePrompt.

End TokenOptimizer.

(** ** class CostTracker *)

Module CostTracker.

Local Open Scope float_scope.

(** [response.usage]: token counts reported by the completion endpoint. *)
Record Usage := mkUsage {
  prompt_tokens : N;
  completion_tokens : N;
  total_tokens : N
}.

(** A token count as the JavaScript number that holds it: below 2^63 this is
    the correctly rounded binary64 value of the integer, which is what
    parsing the response yields; no larger count occurs. *)
Definition number (n : N) : float := PrimFloat.of_uint63 (Uint63.of_Z (Z.of_N n)).

Record Rates := mkRates { input : float; output : float }.

(** What [pricing[key]] can evaluate to. *)
Inductive Property :=
| Own (rates : Rates)     (* an entry of the object literal *)
| Inherited               (* a member of Object.prototype *)
| Undefined.

(** The own properties of the [pricing] literal. *)
Definition pricing : gmap string Rates :=
  <["gpt-4" := mkRates 0.03 0.06]>
    (<["gpt-3.5-turbo" := mkRates 0.0005 0.0015]> ∅).

(** [pricing] is an object literal, so a key it does not own is looked up
    on Object.prototype, which has these members. *)
Definition objectPrototypeKeys : list string :=
  [ "constructor"; "hasOwnProperty"; "isPrototypeOf"; "propertyIsEnumerable";
    "toLocaleString"; "toString"; "valueOf"; "__proto__";
    "__defineGetter__"; "__defineSetter__"; "__lookupGetter__";
    "__lookupSetter__" ].

(** [pricing[key]] *)
Definition getProperty (key : string) : Property :=
  match pricing !! key with
  | Some rates => Own rates
  | None =>
      if existsb (String.eqb key) objectPrototypeKeys then Inherited
      else Undefined
  end.

(** [a || b]: entries and inherited members are objects or functions,
    hence truthy; [undefined] is falsy. *)
Definition orElse (a b : Property) : Property :=
  match a with
  | Undefined => b
  | _ => a
  end.

(** [modelPricing.input] and [modelPricing.output] as operands of [*]:
    a missing property is [undefined], which converts to NaN. *)
Definition inputOf (p : Property) : float :=
  match p with
  | Own rates => input rates
  | _ => nan
  end.

Definition outputOf (p : Property) : float :=
  match p with
  | Own rates => output rates
  | _ => nan
  end.

Definition calculateCost (usage : Usage) (model : string) : float :=
  let modelPricing := orElse (getProperty model) (getProperty "gpt-3.5-turbo") in
  (number (prompt_tokens usage) * inputOf modelPricing / 1000)
  + (number (completion_tokens usage) * outputOf modelPricing / 1000).

Record DailyUsage := mkDailyUsage {
  date : string;
  totalTokens : N;
  totalCost : float;
  requestCount : N
}.

Record BudgetLimits := mkBudgetLimits { daily : float; monthly : float }.

Record Tracker := mkTracker {
  dailyUsage : DailyUsage;
  budgetLimits : BudgetLimits
}.

(** [parseFloat(setting) || fallback]: NaN (an unset or unreadable
    variable) and zero are falsy. *)
Definition orDefault (setting fallback : float) : float :=
  if PrimFloat.is_nan setting || PrimFloat.is_zero setting then fallback
  else setting.

(** [new CostTracker()], given today's date string and what [parseFloat]
    made of the two environment variables. *)
Definition constructor (today : string) (dailyLimit monthlyLimit : float)
  : Tracker :=
  mkTracker (mkDailyUsage today 0%N 0 0%N)
            (mkBudgetLimits (orDefault dailyLimit 50)
                            (orDefault monthlyLimit 1000)).

Inductive Level := CRITICAL | WARNING | INFO.

(** What a call leaves behind, in order. An alert's message is its fixed
    text followed by [totalCost.toFixed(2)]; the amount is kept as the
    number. [UsageStored] is the call of [storeUsageData], which the
    repository does not define. *)
Inductive Event :=
| UsageLogged (tokens : N) (cost : float) (model : string)
| AlertSent (level : Level) (text : string) (amount : float)
| UsageStored (usage : Usage) (cost : float) (model : string).

Definition dailyPercentage (t : Tracker) : float :=
  (totalCost (dailyUsage t) / daily (budgetLimits t)) * 100.

(** [a >= b] on numbers: false when either is NaN. *)
Definition geb (a b : float) : bool := PrimFloat.leb b a.

Definition checkBudgetAlerts (t : Tracker) : list Event :=
  let amount := totalCost (dailyUsage t) in
  if geb (dailyPercentage t) 90
  then [AlertSent CRITICAL "Daily budget 90% exceeded: $" amount]
  else if geb (dailyPercentage t) 75
  then [AlertSent WARNING "Daily budget 75% reached: $" amount]
  else if geb (dailyPercentage t) 50
  then [AlertSent INFO "Daily budget 50% reached: $" amount]
  else [].

(** [trackUsage(usage, model)]: the tracker after the call, the events of
    the call, and the returned cost. *)
Definition trackUsage (t : Tracker) (usage : Usage) (model : string)
  : Tracker * list Event * float :=
  let cost := calculateCost usage model in
  let d := dailyUsage t in
  let t' := mkTracker
              (mkDailyUsage (date d)
                            (totalTokens d + total_tokens usage)%N
                            (totalCost d + cost)
                            (requestCount d + 1)%N)
              (budgetLimits t) in
  (t',
   [UsageLogged (total_tokens usage) cost model]
     ++ checkBudgetAlerts t'
     ++ [UsageStored usage cost model],
   cost).

(** A day of calls on one tracker. *)
Fixpoint trackAll (t : Tracker) (calls : list (Usage * string))
  : Tracker * list Event :=
  match calls with
  | [] => (t, [])
  | (usage, model) :: rest =>
      let '(t', events, _) := trackUsage t usage model in
      let '(t'', later) := trackAll t' rest in
      (t'', events ++ later)
  end.

Definition isAlert (level : Level) (e : Event) : bool :=
  match e, level with
  | AlertSent CRITICAL _ _, CRITICAL
  | AlertSent WARNING _ _, WARNING
  | AlertSent INFO _ _, INFO => true
  | _, _ => false
  end.

Definition alertCount (level : Level) (events : list Event) : nat :=
  length (filter (fun e => isAlert level e = true) events).

End CostTracker.

(** ** The Redis client both cache classes hold *)

(** A thrown JavaScript [Error], by its [message]. *)
Record Error := mkError { message : string }.

Module Redis.

(** The store: each key with its time to live in seconds and its value.
    A client whose server cannot be reached rejects every command. *)
Record Client := mkClient {
  entries : gmap string (Z * string);
  reachable : bool
}.

Definition unreachable : Error := mkError "connect ECONNREFUSED".

(** [await redis.get(key)]: the value, or [null] ([None]). *)
Definition get (r : Client) (key : string) : JS.Completion Error (option string) :=
  if reachable r then JS.Return (snd <$> entries r !! key)
  else JS.Throw unreachable.

(** [await redis.setex(key, ttl, value)] *)
Definition setex (r : Client) (key : string) (ttl : Z) (value : string)
  : JS.Completion Error Client :=
  if reachable r
  then JS.Return (mkClient (<[key := (ttl, value)]> (entries r)) true)
  else JS.Throw unreachable.

(** [redis.expire(key, ttl)], not awaited by its caller. *)
Definition expire (r : Client) (key : string) (ttl : Z) : Client :=
  if reachable r
  then mkClient (alter (fun e => (ttl, snd e)) key (entries r)) true
  else r.

(** [if (cached)]: [null] and the empty string are falsy. *)
Definition truthy (cached : option string) : option string :=
  match cached with
  | Some EmptyString => None
  | other => other
  end.

End Redis.

(** [JSON.stringify] and [JSON.parse] on the cached responses: [parse] throws
    a SyntaxError on text it cannot read. [isObject] tells the values that
    are objects (an array is one) from the primitives and [null]: in strict
    code, and the body of a class is strict, only an object can be given a
    property. *)
Record Json (Response : Type) := mkJson {
  stringify : Response -> string;
  parse : string -> JS.Completion Error Response;
  isObject : Response -> bool
}.
Arguments stringify {Response} _ _.
Arguments parse {Response} _ _.
Arguments isObject {Response} _ _.

(** ** class CacheStrategy *)

Module CacheStrategy.

Definition normalizeMessage (message : string) : string :=
  JS.trim (JS.collapseWhitespace (JS.stripNonWordNonSpace (JS.toLowerCase message))).

Inductive Source := exact_cache | similar_cache.

Record Hit (Response : Type) := mkHit { response : Response; source : Source }.
Arguments mkHit {Response} _ _.

Record State := mkState {
  redis : Redis.Client;
  commonQuestions : gmap string Z
}.

Section Methods.

Context {Response : Type} (JSON : Json Response).

(** [findSimilarQuestion] is called by [getCachedResponse] and defined
    nowhere in the repository: it stays a parameter. *)
Variable findSimilarQuestion : string -> JS.Completion Error (option string).

Definition getCachedResponse (this : State) (message : string)
  : JS.Completion Error (option (Hit Response)) :=
  let normalizedMessage := normalizeMessage message in
  let cacheKey := "exact:" +:+ normalizedMessage in
  JS.bind (Redis.get (redis this) cacheKey) (fun cached =>
  match Redis.truthy cached with
  | Some text =>
      JS.bind (parse JSON text) (fun r => JS.Return (Some (mkHit r exact_cache)))
  | None =>
      JS.bind (findSimilarQuestion normalizedMessage) (fun similarKey =>
      match Redis.truthy similarKey with
      | Some key =>
          JS.bind (Redis.get (redis this) ("similar:" +:+ key)) (fun cached =>
          match Redis.truthy cached with
          | Some text =>
              JS.bind (parse JSON text)
                      (fun r => JS.Return (Some (mkHit r similar_cache)))
          | None => JS.Return None
          end)
      | None => JS.Return None
      end)
  end).

Definition trackCommonQuestion (this : State) (message : string) : State :=
  let count := default 0 (commonQuestions this !! message) in
  let counted := <[message := count + 1]> (commonQuestions this) in
  if count >? 10
  then mkState (Redis.expire (redis this) ("exact:" +:+ message) 604800) counted
  else mkState (redis this) counted.

(** [cacheResponse(message, response, ttl = 86400)] *)
Definition cacheResponse (this : State) (message : string)
    (response : Response) (ttl : Z) : JS.Completion Error State :=
  let normalizedMessage := normalizeMessage message in
  JS.bind (Redis.setex (redis this) ("exact:" +:+ normalizedMessage) ttl
                       (stringify JSON response))
          (fun stored =>
             JS.Return (trackCommonQuestion
                          (mkState stored (commonQuestions this))
                          normalizedMessage)).

End Methods.

End CacheStrategy.

(** ** class CacheService *)

Module CacheService.

(** [Buffer.from(text)]: the UTF-8 bytes of the text. *)
Fixpoint utf8 (text : string) : list Z :=
  match text with
  | EmptyString => []
  | String c r =>
      let n := JS.code c in
      if n <? 128 then n :: utf8 r
      else (192 + n / 64) :: (128 + n mod 64) :: utf8 r
  end.

Definition alphabet : string :=
  "ABCDEFGHIJKLMNOPQRSTUVWXYZabcdefghijklmnopqrstuvwxyz0123456789+/".

Definition digit (n : Z) : string :=
  match String.get (Z.to_nat n) alphabet with
  | Some c => String c ""
  | None => ""
  end.

(** [buffer.toString('base64')] *)
Fixpoint base64 (bytes : list Z) : string :=
  match bytes with
  | [] => ""
  | [a] => digit (a / 4) +:+ digit (a mod 4 * 16) +:+ "=="
  | [a; b] =>
      digit (a / 4) +:+ digit (a mod 4 * 16 + b / 16)
      +:+ digit (b mod 16 * 4) +:+ "="
  | a :: b :: c :: rest =>
      digit (a / 4) +:+ digit (a mod 4 * 16 + b / 16)
      +:+ digit (b mod 16 * 4 + c / 64) +:+ digit (c mod 64)
      +:+ base64 rest
  end.

Definition createCacheKey (message : string) : string :=
  let normalized := JS.trim (JS.stripNonWordNonSpace (JS.toLowerCase message)) in
  "response:" +:+ base64 (utf8 normalized).

(** The parsed response after [response.fromCache = true], which throws a
    TypeError when the parsed response is a primitive or [null]. *)
Record Cached (Response : Type) := mkCached { body : Response; fromCache : bool }.
Arguments mkCached {Response} _ _.

Section Methods.

Context {Response : Type} (JSON : Json Response).

Definition getCachedResponse (redis : Redis.Client) (userMessage : string)
  : JS.Completion Error (option (Cached Response)) :=
  let cacheKey := createCacheKey userMessage in
  JS.try_catch
    (JS.bind (Redis.get redis cacheKey) (fun cached =>
     match Redis.truthy cached with
     | Some text =>
         JS.bind (parse JSON text) (fun response =>
         if isObject JSON response
         then JS.Return (Some (mkCached response true))
         else JS.Throw (mkError "Cannot create property 'fromCache'"))
     | None => JS.Return None
     end))
    (fun error => JS.Return None).

(** [setCachedResponse(userMessage, response, ttl = 3600)]: the client
    after the call; a failed write leaves it as it was. *)
Definition setCachedResponse (redis : Redis.Client) (userMessage : string)
    (response : Response) (ttl : Z) : JS.Completion Error Redis.Client :=
  let cacheKey := createCacheKey userMessage in
  JS.try_catch
    (Redis.setex redis cacheKey ttl (stringify JSON response))
    (fun error => JS.Return redis).

End Methods.

End CacheService.

(** ** class OpenAIService *)

Module OpenAIService.

Local Open Scope float_scope.

(** A saved exchange [{ user, assistant, timestamp }]. *)
Record Exchange := mkExchange { userText : string; assistantText : string }.

Definition buildBankingSystemPrompt : string :=
"You are BankGPT, a professional AI banking advisor with expertise in personal finance, banking products, and financial planning.

Your role:
- Provide helpful, accurate banking and financial advice
- Explain complex financial concepts in simple terms
- Recommend appropriate banking products and services
- Help users make informed financial decisions

Guidelines:
- Always maintain a professional but friendly tone
- Provide practical, actionable advice
- Include disclaimers for major financial decisions
- Recommend consulting with licensed professionals when appropriate
- Focus on educational content rather than specific product recommendations
- Never provide investment advice that could be considered financial planning
- Always prioritize the user's financial wellbeing

Banking Topics You Cover:
- Savings accounts and interest rates
- Checking accounts and banking fees
- Credit scores and credit improvement
- Loans and mortgages
- Basic investment concepts
- Budgeting and financial planning
- Debt management strategies
- Banking security and fraud prevention

Keep responses conversational, informative, and within 2-3 paragraphs unless the user specifically asks for detailed information.".

Definition formatConversationHistory (systemPrompt : string)
    (history : list Exchange) (currentMessage : string) : list Turn :=
  let recentHistory := JS.slice history (-10) None in
  [mkTurn system (Some systemPrompt)]
    ++ flat_map (fun item => [ mkTurn user (Some (userText item));
                               mkTurn assistant (Some (assistantText item)) ])
                recentHistory
    ++ [mkTurn user (Some currentMessage)].

(** The body of [chat.completions.create]. *)
Record Request := mkRequest {
  model : string;
  messages : list Turn;
  max_tokens : Z;
  temperature : float;
  presence_penalty : float;
  frequency_penalty : float
}.

(** What can go wrong between the call and a usable response. *)
Inductive Failure :=
| ConnectionFailed
| TimedOut
| HttpStatus (status : Z)
| UnreadableBody.

(** The error that reaches the [catch]: what went wrong, and
    [error.message]. *)
Record ClientError := mkClientError { failure : Failure; reason : string }.

(** A response that could be read: [choices[0].message.content], [usage]. *)
Record ApiResponse := mkApiResponse {
  choiceContent : string;
  usage : CostTracker.Usage
}.

Record Reply := mkReply { text : string; replyUsage : CostTracker.Usage }.

Inductive Event :=
| UsageTracked (usage : CostTracker.Usage) (cost : float)
| ErrorLogged (reason : string).

(** GPT-3.5-turbo pricing, the only one this class knows. *)
Definition calculateCost (usage : CostTracker.Usage) : float :=
  let inputCostPer1K := 0.0005 in
  let outputCostPer1K := 0.0015 in
  (CostTracker.number (CostTracker.prompt_tokens usage) * inputCostPer1K / 1000)
  + (CostTracker.number (CostTracker.completion_tokens usage) * outputCostPer1K / 1000).

Section Gateway.

(** The completion endpoint behind [this.client]. *)
Variable create : Request -> JS.Completion ClientError ApiResponse.

(** [this.model] and [parseInt(process.env.OPENAI_MAX_TOKENS) || 500]. *)
Variable configuredModel : string.
Variable configuredMaxTokens : Z.

(** [generateResponse(message, conversationHistory = [])]: the events it
    logs, and the reply or the error it throws. *)
Definition generateResponse (message : string)
    (conversationHistory : list Exchange)
  : list Event * JS.Completion Error Reply :=
  let systemPrompt := buildBankingSystemPrompt in
  let messages :=
    formatConversationHistory systemPrompt conversationHistory message in
  match create (mkRequest configuredModel messages configuredMaxTokens
                          0.7 0.1 0.1) with
  | JS.Return response =>
      ([UsageTracked (usage response) (calculateCost (usage response))],
       JS.Return (mkReply (choiceContent response) (usage response)))
  | JS.Throw error =>
      ([ErrorLogged (reason error)],
       JS.Throw (mkError ("OpenAI API Error: " +:+ reason error)))
  end.

End Gateway.

(** The error classes of the specification's completion gateway. *)
Inductive ErrorClass :=
| UpstreamUnavailable
| UpstreamRejected
| UpstreamError
| MalformedResponse.

(** The class the specification assigns to each failure: connection and
    timeout, 4xx, 5xx and other statuses, a body that cannot be read. *)
Definition specifiedClass (f : Failure) : ErrorClass :=
  match f with
  | ConnectionFailed | TimedOut => UpstreamUnavailable
  | HttpStatus status =>
      if (400 <=? status)%Z && (status <? 500)%Z then UpstreamRejected
      else UpstreamError
  | UnreadableBody => MalformedResponse
  end.

End OpenAIService.

(** ** class ModelSelector *)

Module ModelSelector.

Definition simpleKeywords : list string := ["balance"; "hours"; "location"; "phone"].

Definition complexKeywords : list string :=
  ["investment strategy"; "portfolio"; "tax implications"].

(** [selectModel(message, conversationLength)] *)
Definition selectModel (message : string) (conversationLength : Z) : string :=
  let isSimpleQuery :=
    existsb (fun keyword => JS.includes (JS.toLowerCase message) keyword)
            simpleKeywords in
  let isComplexQuery :=
    existsb (fun keyword => JS.includes (JS.toLowerCase message) keyword)
            complexKeywords in
  if isSimpleQuery || (conversationLength <? 3) then "gpt-3.5-turbo"
  else if isComplexQuery then "gpt-4"
  else "gpt-3.5-turbo".

End ModelSelector.

(** ** class AlertSystem *)

Module AlertSystem.

(** An alert as [createAlert] builds it, without its timestamp. *)
Record Alert := mkAlert {
  type : string;
  alertMessage : string;
  value : float;
  severity : string
}.

(** [this.alertCooldowns], and the alerts [sendAlert] has logged, oldest
    first. *)
Record State := mkState {
  alertCooldowns : gmap string Z;
  sent : list Alert
}.

(** [new AlertSystem()] *)
Definition constructor : State := mkState ∅ [].

(** 30 minutes for critical alerts, 1 hour for the others, in milliseconds. *)
Definition cooldownPeriod (alert : Alert) : Z :=
  if String.eqb (severity alert) "critical" then 30 * 60 * 1000
  else 60 * 60 * 1000.

Definition cooldownKey (alert : Alert) : string :=
  type alert +:+ "-" +:+ severity alert.

(** [sendAlertIfNotCooling(alert)], with [now] the value of [Date.now()].
    [!lastAlert] holds for a missing entry and for the time stamp 0. *)
Definition sendAlertIfNotCooling (this : State) (now : Z) (alert : Alert) : State :=
  let lastAlert := alertCooldowns this !! cooldownKey alert in
  let cooling :=
    match lastAlert with
    | None => false
    | Some 0 => false
    | Some lastAlert => negb (now - lastAlert >? cooldownPeriod alert)
    end in
  if cooling then this
  else mkState (<[cooldownKey alert := now]> (alertCooldowns this))
               (sent this ++ [alert]).

(** The same alert raised at each of the given times. *)
Definition raiseAt (this : State) (times : list Z) (alert : Alert) : State :=
  fold_left (fun state now => sendAlertIfNotCooling state now alert) times this.

End AlertSystem.

(** ** class UsageAnalytics *)

Module UsageAnalytics.

Local Open Scope float_scope.

(** The document the [$group] stage produces for a day. *)
Record Summary := mkSummary {
  totalCost : float;
  totalTokens : float;
  requestCount : float;
  avgTokensPerRequest : float;
  models : list string
}.

Inductive Kind := optimization | cost.

Record Recommendation := mkRecommendation { kind : Kind; advice : string }.

(** [a > b] on numbers: false when either is NaN. *)
Definition gtb (a b : float) : bool := PrimFloat.ltb b a.

(** [generateRecommendations(usage)]: reading a property of [undefined]
    throws a TypeError. *)
Definition generateRecommendations (usage : option Summary)
  : JS.Completion Error (list Recommendation) :=
  match usage with
  | None =>
      JS.Throw (mkError
        "Cannot read properties of undefined (reading 'avgTokensPerRequest')")
  | Some usage =>
      let first :=
        if gtb (avgTokensPerRequest usage) 1000
        then [mkRecommendation optimization
                "Average tokens per request is high. Consider implementing conversation summarization."]
        else [] in
      let second :=
        if gtb (totalCost usage) 30
        then [mkRecommendation cost
                "Daily costs are high. Review caching strategies and model selection."]
        else [] in
      JS.Return (first ++ second)
  end.

(** The report: [summary] is [usage[0] || {}], [None] standing for [{}]. *)
Record Report := mkReport {
  date : string;
  summary : option Summary;
  recommendations : list Recommendation
}.

(** [generateDailyReport()], given today's date string and the outcome of
    the aggregation over the day's usage records. *)
Definition generateDailyReport (today : string)
    (aggregate : JS.Completion Error (list Summary))
  : JS.Completion Error Report :=
  JS.bind aggregate (fun usage =>
  JS.bind (generateRecommendations (head usage)) (fun recommendations =>
  JS.Return (mkReport today (head usage) recommendations))).

End UsageAnalytics.

(** ** class ConversationService *)

Module ConversationService.

(** A saved exchange [{ user, assistant, timestamp }]. *)
Record Entry := mkEntry {
  user_ : string;
  assistant_ : string;
  timestamp : string
}.

(** A document of [db.conversations]: [{ id, history, lastUpdated }], kept
    under its [id]. A database that cannot be reached rejects every
    command. *)
Record Document := mkDocument { history : list Entry; lastUpdated : string }.

Record Database := mkDatabase {
  conversations : gmap string Document;
  available : bool
}.

Definition unavailable : Error := mkError "MongoNetworkError".

(** [await db.conversations.findOne({ id })] *)
Definition findOne (db : Database) (id : string)
  : JS.Completion Error (option Document) :=
  if available db then JS.Return (conversations db !! id)
  else JS.Throw unavailable.

(** [await db.conversations.updateOne({ id }, { $push: { history: entry },
    $set: { lastUpdated } }, { upsert: true })] *)
Definition updateOne (db : Database) (id : string) (entry : Entry)
    (updated : string) : JS.Completion Error Database :=
  if available db
  then
    let before := match conversations db !! id with
                  | Some doc => history doc
                  | None => []
                  end in
    JS.Return (mkDatabase
                 (<[id := mkDocument (before ++ [entry]) updated]> (conversations db))
                 true)
  else JS.Throw unavailable.

Record Stores := mkStores { redis : Redis.Client; db : Database }.

Section Methods.

(** [JSON] on conversation histories. *)
Variable JSON : Json (list Entry).

Definition cacheKey (conversationId : string) : string :=
  "conversation:" +:+ conversationId.

(** [getConversationContext(conversationId)]: the stores after the call and
    the context it returns. *)
Definition getConversationContext (this : Stores) (conversationId : string)
  : JS.Completion Error (Stores * list Entry) :=
  JS.try_catch
    (JS.bind (Redis.get (redis this) (cacheKey conversationId)) (fun cached =>
     match Redis.truthy cached with
     | Some text =>
         JS.bind (parse JSON text) (fun context => JS.Return (this, context))
     | None =>
         JS.bind (findOne (db this) conversationId) (fun dbResult =>
         let context := match dbResult with
                        | Some doc => history doc
                        | None => []
                        end in
         JS.bind (Redis.setex (redis this) (cacheKey conversationId) 3600
                              (stringify JSON context))
                 (fun stored => JS.Return (mkStores stored (db this), context)))
     end))
    (fun error => JS.Return (this, [])).

(** [saveConversation(conversationId, userMessage, aiResponse)], with the
    two dates it takes: the stores after the call. What was written before
    a failing step stays written. *)
Definition saveConversation (this : Stores) (conversationId : string)
    (userMessage aiResponse : string) (now updated : string)
  : JS.Completion Error Stores :=
  let conversationEntry := mkEntry userMessage aiResponse now in
  match updateOne (db this) conversationId conversationEntry updated with
  | JS.Throw error => JS.Return this
  | JS.Return db' =>
      match getConversationContext (mkStores (redis this) db') conversationId with
      | JS.Throw error => JS.Return (mkStores (redis this) db')
      | JS.Return (after, context) =>
          match Redis.setex (redis after) (cacheKey conversationId) 3600
                            (stringify JSON (context ++ [conversationEntry])) with
          | JS.Throw error => JS.Return after
          | JS.Return stored => JS.Return (mkStores stored (db after))
          end
      end
  end.

End Methods.

(** An element of the history [summarizeConversation] works on: a saved
    exchange, or the summary turn [{ role: 'system', content }] it puts in
    front. *)
Inductive Item :=
| Saved (entry : Entry)
| SummaryTurn (content : string).

Section Summarize.

(** [generateSummary] is called by [summarizeConversation] and defined
    nowhere in the repository: it stays a parameter. *)
Variable generateSummary : list Item -> JS.Completion Error string.

Definition summarizeConversation (conversationHistory : list Item)
  : JS.Completion Error (list Item) :=
  if Z.of_nat (length conversationHistory) >? 20
  then
    let olderMessages := JS.slice conversationHistory 0 (Some (-10)) in
    let recentMessages := JS.slice conversationHistory (-10) None in
    JS.bind (generateSummary olderMessages) (fun summary =>
    JS.Return (SummaryTurn ("Previous conversation summary: " +:+ summary)
                 :: recentMessages))
  else JS.Return conversationHistory.

End Summarize.

End ConversationService.

(** ** class MetricsService *)

Module MetricsService.

Local Open Scope float_scope.

Record Metrics := mkMetrics {
  requestCount : N;
  responseTime : list float;
  errorCount : N;
  tokenUsage : N;
  costs : float
}.

(** [new MetricsService()] *)
Definition constructor : Metrics := mkMetrics 0 [] 0 0 0.

(** [checkAlerts()]: whether [sendCostAlert] is called, given what
    [parseFloat] made of DAILY_COST_LIMIT. *)
Definition checkAlerts (m : Metrics) (dailyCostLimit : float) : bool :=
  PrimFloat.ltb dailyCostLimit (costs m).

(** [recordRequest(responseTime, tokenUsage, cost, error = null)]: the
    metrics after the call, and whether it sent a cost alert. [failed]
    says that [error] was given. *)
Definition recordRequest (m : Metrics) (dailyCostLimit : float)
    (elapsed : float) (tokens : N) (cost : float) (failed : bool)
  : Metrics * bool :=
  let m' := mkMetrics (requestCount m + 1)%N
                      (responseTime m ++ [elapsed])
                      (if failed then (errorCount m + 1)%N else errorCount m)
                      (tokenUsage m + tokens)%N
                      (costs m + cost) in
  (m', checkAlerts m' dailyCostLimit).

Definition recordAll (m : Metrics) (dailyCostLimit : float)
    (requests : list (float * N * float * bool)) : Metrics :=
  fold_left (fun m '(elapsed, tokens, cost, failed) =>
               fst (recordRequest m dailyCostLimit elapsed tokens cost failed))
            requests m.

End MetricsService.

(** ** class HealthService *)

Module HealthService.

(** A value of the [checks] object: the report of a check, or the number
    [process.uptime()] returns. *)
Inductive Check :=
| Result (status : string)
| Seconds (uptime : float).

(** [check.status]: a number has no such property. *)
Definition statusOf (check : Check) : option string :=
  match check with
  | Result status => Some status
  | Seconds _ => None
  end.

Record Health := mkHealth {
  status : string;
  checks : list (string * Check);
  timestamp : string
}.

(** [checkHealth()], given the outcomes of the four checks, which the
    repository does not define, the uptime and the time of the call. *)
Definition checkHealth
    (checkOpenAI checkDatabase checkCache checkMemory : JS.Completion Error string)
    (uptime : float) (now : string) : JS.Completion Error Health :=
  JS.bind checkOpenAI (fun openai =>
  JS.bind checkDatabase (fun database =>
  JS.bind checkCache (fun cache =>
  JS.bind checkMemory (fun memory =>
  let checks := [ ("openai", Result openai); ("database", Result database);
                  ("cache", Result cache); ("memory", Result memory);
                  ("uptime", Seconds uptime) ] in
  let isHealthy :=
    forallb (fun check => match statusOf (snd check) with
                          | Some status => String.eqb status "healthy"
                          | None => false
                          end) checks in
  JS.Return (mkHealth (if isHealthy then "healthy" else "unhealthy")
                      checks now))))).

End HealthService.

(** ** Strings beyond U+00FF *)

(** A string as the list of its UTF-16 code units, for messages that are
    not made of code units below U+0100 alone. [\w], [\s] and [trim] are
    written out for every code unit. [toLowerCase] is written out for the
    code units below U+0100, for U+0130 (capital I with dot above, which
    becomes i followed by U+0307) and for U+212A (the Kelvin sign, which
    becomes k); on a string with any other code unit it is not defined here
    and the result is [None]. *)
Module Utf16.

Definition units (s : string) : list Z := map JS.code (list_ascii_of_string s).

Definition isWordUnit (n : Z) : bool :=
  ((65 <=? n) && (n <=? 90)) || ((97 <=? n) && (n <=? 122))
  || ((48 <=? n) && (n <=? 57)) || (n =? 95).

(** TAB..CR, SPACE, U+00A0, U+1680, U+2000..U+200A, U+2028, U+2029, U+202F,
    U+205F, U+3000 and U+FEFF. *)
Definition isSpaceUnit (n : Z) : bool :=
  ((9 <=? n) && (n <=? 13)) || (n =? 32) || (n =? 160) || (n =? 5760)
  || ((8192 <=? n) && (n <=? 8202)) || (n =? 8232) || (n =? 8233)
  || (n =? 8239) || (n =? 8287) || (n =? 12288) || (n =? 65279).

Definition lowerUnit (n : Z) : option (list Z) :=
  if (0 <=? n) && (n <? 256)
  then Some [JS.code (JS.lowerChar (ascii_of_N (Z.to_N n)))]
  else if n =? 304 then Some [105; 775]
  else if n =? 8490 then Some [107]
  else None.

Fixpoint toLowerCase (s : list Z) : option (list Z) :=
  match s with
  | [] => Some []
  | n :: r =>
      match lowerUnit n, toLowerCase r with
      | Some lowered, Some rest => Some (lowered ++ rest)
      | _, _ => None
      end
  end.

Definition stripNonWordNonSpace (s : list Z) : list Z :=
  List.filter (fun n => isWordUnit n || isSpaceUnit n) s.

Fixpoint collapseFrom (inRun : bool) (s : list Z) : list Z :=
  match s with
  | [] => []
  | n :: r =>
      if isSpaceUnit n
      then if inRun then collapseFrom true r else 32 :: collapseFrom true r
      else n :: collapseFrom false r
  end.

Fixpoint trimStart (s : list Z) : list Z :=
  match s with
  | [] => []
  | n :: r => if isSpaceUnit n then trimStart r else s
  end.

Fixpoint trimEnd (s : list Z) : list Z :=
  match s with
  | [] => []
  | n :: r =>
      match trimEnd r with
      | [] => if isSpaceUnit n then [] else [n]
      | r' => n :: r'
      end
  end.

Definition trim (s : list Z) : list Z := trimEnd (trimStart s).

(** [CacheStrategy.normalizeMessage] on code units. *)
Definition normalizeMessage (message : list Z) : option (list Z) :=
  match toLowerCase message with
  | Some lowered => Some (trim (collapseFrom false (stripNonWordNonSpace lowered)))
  | None => None
  end.

(** Two messages that differ only in letter case and in code units that are
    neither word characters nor white space. *)
Inductive sameUpToCaseAndPunctuation : list Z -> list Z -> Prop :=
| same_end : sameUpToCaseAndPunctuation [] []
| same_letter (c d : Z) (a b : list Z) :
    lowerUnit c = lowerUnit d ->
    sameUpToCaseAndPunctuation a b ->
    sameUpToCaseAndPunctuation (c :: a) (d :: b)
| same_skip_left (p : Z) (a b : list Z) :
    isWordUnit p = false -> isSpaceUnit p = false ->
    sameUpToCaseAndPunctuation a b ->
    sameUpToCaseAndPunctuation (p :: a) b
| same_skip_right (p : Z) (a b : list Z) :
    isWordUnit p = false -> isSpaceUnit p = false ->
    sameUpToCaseAndPunctuation a b ->
    sameUpToCaseAndPunctuation a (p :: b).

End Utf16.

(** * Notions the properties are stated with *)

(** A number that is not negative: its sign bit is clear, or it is NaN. *)
Definition signClear (x : spec_float) : Prop :=
  match x with
  | S754_zero s | S754_infinity s | S754_finite s _ _ => s = false
  | S754_nan => True
  end.

(** The one alert [checkBudgetAlerts] selects for a tracker, if any. *)
Definition reached (level : CostTracker.Level) (t : CostTracker.Tracker) : bool :=
  let percentage := CostTracker.dailyPercentage t in
  match level with
  | CostTracker.CRITICAL => CostTracker.geb percentage 90
  | CostTracker.WARNING =>
      negb (CostTracker.geb percentage 90) && CostTracker.geb percentage 75
  | CostTracker.INFO =>
      negb (CostTracker.geb percentage 90) && negb (CostTracker.geb percentage 75)
      && CostTracker.geb percentage 50
  end.

(** The tracker after each call of a day. *)
Fixpoint trackersAfter (t : CostTracker.Tracker)
    (calls : list (CostTracker.Usage * string)) : list CostTracker.Tracker :=
  match calls with
  | [] => []
  | (usage, model) :: rest =>
      let t' := fst (fst (CostTracker.trackUsage t usage model)) in
      t' :: trackersAfter t' rest
  end.

(** Two messages that differ only in letter case and in characters that are
    neither word characters nor white space: read left to right, they agree
    character by character up to case, once such characters are skipped on
    either side. *)
Inductive sameUpToCaseAndPunctuation : string -> string -> Prop :=
| same_end : sameUpToCaseAndPunctuation "" ""
| same_letter (c d : ascii) (a b : string) :
    JS.lowerChar c = JS.lowerChar d ->
    sameUpToCaseAndPunctuation a b ->
    sameUpToCaseAndPunctuation (String c a) (String d b)
| same_skip_left (p : ascii) (a b : string) :
    JS.isWordChar p = false -> JS.isSpaceChar p = false ->
    sameUpToCaseAndPunctuation a b ->
    sameUpToCaseAndPunctuation (String p a) b
| same_skip_right (p : ascii) (a b : string) :
    JS.isWordChar p = false -> JS.isSpaceChar p = false ->
    sameUpToCaseAndPunctuation a b ->
    sameUpToCaseAndPunctuation a (String p b).

(** [JSON] on the responses [true] and [false], which are primitives. *)
Definition jsonOfBool : Json bool :=
  mkJson bool
    (fun b : bool => if b then "true" else "false")
    (fun text => if String.eqb text "true" then JS.Return true
                 else if String.eqb text "false" then JS.Return false
                 else JS.Throw (mkError "Unexpected token in JSON"))
    (fun _ => false).

(** A rendering of the response objects [{ response: text }], each given by
    its text, and [JSON] restricted to the responses of a given list:
    [parse] reads back what [stringify] wrote for one of them and throws on
    any other text. *)
Definition renderReply (text : string) : string := "{response:" +:+ text +:+ "}".

Definition jsonOfReplies (known : list string) : Json string :=
  mkJson string renderReply
    (fun text =>
       match List.find (fun reply => String.eqb (renderReply reply) text) known with
       | Some reply => JS.Return reply
       | None => JS.Throw (mkError "Unexpected token in JSON")
       end)
    (fun _ => true).

(** Every character of a string passes a test. *)
Fixpoint every (p : ascii -> bool) (s : string) : bool :=
  match s with
  | EmptyString => true
  | String c r => p c && every p r
  end.

(** The characters a normalized message is made of: a-z, 0-9, underscore
    and SPACE. *)
Definition isKeyChar (c : ascii) : bool :=
  let n := JS.code c in
  ((97 <=? n) && (n <=? 122)) || ((48 <=? n) && (n <=? 57)) || (n =? 95)
  || (n =? 32).

(** White space occurs only as single SPACE characters; [afterSpace] says
    that the character before the string is white space. *)
Fixpoint singleSpaced (afterSpace : bool) (s : string) : bool :=
  match s with
  | EmptyString => true
  | String c r =>
      if JS.isSpaceChar c
      then negb afterSpace && Ascii.eqb c " " && singleSpaced true r
      else singleSpaced false r
  end.

(** The string does not start with white space. *)
Definition startsClean (s : string) : bool :=
  match s with
  | EmptyString => true
  | String c _ => negb (JS.isSpaceChar c)
  end.

(** The same response cached [n] times under the same message. *)
Fixpoint cacheRepeatedly {Response : Type} (JSON : Json Response)
    (this : CacheStrategy.State) (message : string) (response : Response)
    (ttl : Z) (n : nat) : JS.Completion Error CacheStrategy.State :=
  match n with
  | O => JS.Return this
  | S n' =>
      JS.bind (cacheRepeatedly JSON this message response ttl n')
              (fun state => CacheStrategy.cacheResponse JSON state message response ttl)
  end.

(** A rendering of conversation histories as text, and [JSON] restricted to
    the histories of a given list: [parse] reads back what [stringify]
    wrote for one of them and throws on any other text. *)
Definition renderHistory (context : list ConversationService.Entry) : string :=
  "[" +:+ JS.join ","
            (map (fun e => "{" +:+ ConversationService.user_ e +:+ "|"
                           +:+ ConversationService.assistant_ e +:+ "|"
                           +:+ ConversationService.timestamp e +:+ "}")
                 context)
  +:+ "]".

Definition jsonOfHistories (known : list (list ConversationService.Entry))
  : Json (list ConversationService.Entry) :=
  mkJson (list ConversationService.Entry) renderHistory
    (fun text =>
       match List.find (fun context => String.eqb (renderHistory context) text) known with
       | Some context => JS.Return context
       | None => JS.Throw (mkError "Unexpected token in JSON")
       end)
    (fun _ => true).

(** Reading a cache key back: the value of a base64 digit, the bytes of a
    base64 text, and the text of UTF-8 bytes below U+0100. *)
Fixpoint indexIn (c : ascii) (s : string) (from : Z) : Z :=
  match s with
  | EmptyString => from
  | String d r => if Ascii.eqb c d then from else indexIn c r (from + 1)
  end.

Definition digitValue (c : ascii) : Z := indexIn c CacheService.alphabet 0.

(** The base64 digit of a value below 64. *)
Definition digitChar (n : Z) : ascii :=
  match String.get (Z.to_nat n) CacheService.alphabet with
  | Some c => c
  | None => "="%char
  end.

Fixpoint base64Decode (text : string) : list Z :=
  match text with
  | String c1 (String c2 (String c3 (String c4 rest))) =>
      let v1 := digitValue c1 in
      let v2 := digitValue c2 in
      let v3 := digitValue c3 in
      let v4 := digitValue c4 in
      if Ascii.eqb c3 "=" then [v1 * 4 + v2 / 16]
      else if Ascii.eqb c4 "=" then [v1 * 4 + v2 / 16; v2 mod 16 * 16 + v3 / 4]
      else (v1 * 4 + v2 / 16) :: (v2 mod 16 * 16 + v3 / 4) :: (v3 mod 4 * 64 + v4)
             :: base64Decode rest
  | _ => []
  end.

Fixpoint utf8Decode (bytes : list Z) : string :=
  match bytes with
  | [] => EmptyString
  | b :: rest =>
      if b <? 128 then String (ascii_of_N (Z.to_N b)) (utf8Decode rest)
      else match rest with
           | [] => EmptyString
           | b2 :: rest' =>
               String (ascii_of_N (Z.to_N ((b - 192) * 64 + (b2 - 128))))
                      (utf8Decode rest')
           end
  end.

(** * Properties *)

(** ** Strings and arrays *)

Section StringFacts.

(** stdpp keeps [+:+] from unfolding; these are its two equations. *)
Lemma append_nil (t : string) : "" +:+ t = t.
Proof. reflexivity. Qed.

Lemma append_cons (c : ascii) (s t : string) :
  String c s +:+ t = String c (s +:+ t).
Proof. reflexivity. Qed.

Lemma prefix_spec (k s : string) :
  String.prefix k s = true <-> exists post, s = k +:+ post.
Proof.
  revert s. induction k as [|c k IH]; intros s.
  - split; [intros _; exists s; reflexivity | intros _; destruct s; reflexivity].
  - destruct s as [|d s]; simpl.
    + split; [discriminate | intros [post H]; discriminate].
    + destruct (Ascii.ascii_dec c d) as [->|Hne].
      * rewrite IH. split; intros [post H]; exists post.
        -- now rewrite H.
        -- now inversion H.
      * split; [discriminate | intros [post H]; inversion H; congruence].
Qed.

(** [includes] is the substring test. *)
Lemma includes_spec (s k : string) :
  JS.includes s k = true <-> exists pre post, s = pre +:+ k +:+ post.
Proof.
  induction s as [|c s IH]; cbn [JS.includes].
  - rewrite orb_false_r, prefix_spec. split.
    + intros [post H]. exists "", post. exact H.
    + intros [pre [post H]]. destruct pre; [now exists post | discriminate].
  - rewrite orb_true_iff, prefix_spec, IH. split.
    + intros [[post H] | [pre [post H]]].
      * exists "", post. exact H.
      * exists (String c pre), post. simpl. now rewrite H.
    + intros [pre [post H]]. destruct pre as [|d pre];
        rewrite ?append_nil, ?append_cons in H.
      * left. now exists post.
      * right. inversion H. now exists pre, post.
Qed.

Lemma length_repeatString (c : ascii) (n : nat) :
  String.length (JS.repeatString (String c "") n) = n.
Proof.
  induction n as [|n IH]; [reflexivity|].
  cbn [JS.repeatString]. rewrite append_cons, append_nil. simpl. now rewrite IH.
Qed.

End StringFacts.

Section SliceFacts.

Context {A : Type}.

(** [l.slice(0, -k)] and [l.slice(-k)] split an array of at least [k]
    elements before its last [k], for a positive [k]. *)
Lemma slice_split (l : list A) (k : nat) :
  (0 < k <= length l)%nat ->
  JS.slice l 0 (Some (- Z.of_nat k)) = take (length l - k) l
  /\ JS.slice l (- Z.of_nat k) None = drop (length l - k) l.
Proof.
  intros Hk.
  assert (Hneg : (- Z.of_nat k <? 0) = true) by (apply Z.ltb_lt; lia).
  unfold JS.slice, JS.relativeIndex. cbv zeta.
  rewrite Hneg. change (0 <? 0) with false. cbv iota.
  rewrite (Z.min_l 0) by lia. rewrite Z.max_l by lia.
  change (Z.to_nat 0) with 0%nat. rewrite drop_0.
  replace (Z.to_nat (Z.of_nat (length l) + - Z.of_nat k - 0))
    with (length l - k)%nat by lia.
  replace (Z.to_nat (Z.of_nat (length l) + - Z.of_nat k))
    with (length l - k)%nat by lia.
  split; [reflexivity|].
  apply take_ge. rewrite length_drop. lia.
Qed.

End SliceFacts.

(** ** TokenOptimizer: topics *)

Section TopicFacts.

Import TokenOptimizer.

Lemma setAdd_elem (topic x : string) (topics : list string) :
  x ∈ setAdd topic topics <-> x ∈ topics \/ x = topic.
Proof.
  unfold setAdd. destruct (existsb (String.eqb topic) topics) eqn:E.
  - split; [now left | intros [H | ->]; [exact H|]].
    apply existsb_exists in E as [y [Hy Heq]].
    apply String.eqb_eq in Heq as ->. now apply list_elem_of_In.
  - rewrite elem_of_app, list_elem_of_singleton. reflexivity.
Qed.

Lemma setAdd_NoDup (topic : string) (topics : list string) :
  NoDup topics -> NoDup (setAdd topic topics).
Proof.
  intros Hnd. unfold setAdd.
  destruct (existsb (String.eqb topic) topics) eqn:E; [exact Hnd|].
  apply NoDup_app. split; [exact Hnd|]. split; [|apply NoDup_singleton].
  intros x Hx Hin. apply list_elem_of_singleton in Hin as ->.
  assert (existsb (String.eqb topic) topics = true); [|congruence].
  apply existsb_exists. exists topic. split; [now apply list_elem_of_In|].
  apply String.eqb_refl.
Qed.

(** One pass over a keyword table adds exactly the topics of the entries
    whose keywords the text mentions. *)
Lemma fold_table_elem (text : string) (table : list (string * list string))
    (topics : list string) (x : string) :
  x ∈ fold_left (fun acc entry =>
                   if mentions text (snd entry)
                   then setAdd (fst entry) acc else acc) table topics
  <-> x ∈ topics
      \/ exists entry, entry ∈ table /\ fst entry = x
                       /\ mentions text (snd entry) = true.
Proof.
  revert topics. induction table as [|e table IH]; intros topics; simpl.
  - split; [now left | intros [H | [entry [H _]]]; [exact H|]].
    now apply elem_of_nil in H.
  - rewrite IH. destruct (mentions text (snd e)) eqn:E.
    + rewrite setAdd_elem. split.
      * intros [[H | ->] | [entry [Hin H]]].
        -- now left.
        -- right. exists e. split; [left|]; auto.
        -- right. exists entry. split; [now right | exact H].
      * intros [H | [entry [Hin [Hfst Hm]]]]; [now left; left|].
        apply elem_of_cons in Hin as [-> | Hin]; [left; right; now symmetry|].
        right. now exists entry.
    + split.
      * intros [H | [entry [Hin H]]]; [now left|].
        right. exists entry. split; [now right | exact H].
      * intros [H | [entry [Hin [Hfst Hm]]]]; [now left|].
        apply elem_of_cons in Hin as [-> | Hin]; [congruence|].
        right. now exists entry.
Qed.

Lemma fold_table_NoDup (text : string) (table : list (string * list string))
    (topics : list string) :
  NoDup topics ->
  NoDup (fold_left (fun acc entry =>
                      if mentions text (snd entry)
                      then setAdd (fst entry) acc else acc) table topics).
Proof.
  revert topics. induction table as [|e table IH]; intros topics Hnd; simpl.
  - exact Hnd.
  - apply IH. destruct (mentions text (snd e)); [now apply setAdd_NoDup | exact Hnd].
Qed.

Lemma fold_addTopicsOf_elem (history : list Turn) (topics : list string)
    (x : string) :
  x ∈ fold_left addTopicsOf history topics
  <-> x ∈ topics
      \/ exists exchange entry,
           exchange ∈ history /\ entry ∈ bankingKeywords /\ fst entry = x
           /\ mentions (exchangeText exchange) (snd entry) = true.
Proof.
  revert topics. induction history as [|e history IH]; intros topics; simpl.
  - split; [now left | intros [H | [ex [entry [H _]]]]; [exact H|]].
    now apply elem_of_nil in H.
  - rewrite IH. unfold addTopicsOf. rewrite fold_table_elem. split.
    + intros [[H | [entry [Hin H]]] | [ex [entry [Hex H]]]].
      * now left.
      * right. exists e, entry. split; [left|]; auto.
      * right. exists ex, entry. split; [now right | exact H].
    + intros [H | [ex [entry [Hex H]]]]; [now left; left|].
      apply elem_of_cons in Hex as [-> | Hex].
      * left. right. now exists entry.
      * right. now exists ex, entry.
Qed.

Lemma fold_addTopicsOf_NoDup (history : list Turn) (topics : list string) :
  NoDup topics -> NoDup (fold_left addTopicsOf history topics).
Proof.
  revert topics. induction history as [|e history IH]; intros topics Hnd; simpl.
  - exact Hnd.
  - apply IH. now apply fold_table_NoDup.
Qed.

(** [keywords.some(...)]: some keyword of the list is a substring. *)
Lemma mentions_spec (text : string) (keywords : list string) :
  mentions text keywords = true
  <-> exists keyword pre post,
        keyword ∈ keywords /\ text = pre +:+ keyword +:+ post.
Proof.
  unfold mentions. rewrite existsb_exists. split.
  - intros [k [Hin Hinc]]. apply includes_spec in Hinc as [pre [post H]].
    exists k, pre, post. split; [now apply list_elem_of_In | exact H].
  - intros [k [pre [post [Hin H]]]]. exists k.
    split; [now apply list_elem_of_In|]. apply includes_spec. now exists pre, post.
Qed.

(** The topics [extractTopics] returns are those of the table with a
    keyword that occurs, case-insensitively, in some exchange; none is
    returned twice. *)
Lemma extractTopics_spec (history : list Turn) (topic : string) :
  topic ∈ extractTopics history
  <-> exists keywords exchange keyword pre post,
        (topic, keywords) ∈ bankingKeywords /\ exchange ∈ history
        /\ keyword ∈ keywords
        /\ exchangeText exchange = pre +:+ keyword +:+ post.
Proof.
  unfold extractTopics. rewrite fold_addTopicsOf_elem. split.
  - intros [H | [ex [[name kws] [Hex [Hin [Hfst Hm]]]]]].
    + now apply elem_of_nil in H.
    + simpl in Hfst, Hm. subst name.
      apply mentions_spec in Hm as [k [pre [post [Hk H]]]].
      now exists kws, ex, k, pre, post.
  - intros [kws [ex [k [pre [post [Hin [Hex [Hk H]]]]]]]]. right.
    exists ex, (topic, kws). repeat split; auto.
    apply mentions_spec. now exists k, pre, post.
Qed.

Lemma extractTopics_NoDup (history : list Turn) : NoDup (extractTopics history).
Proof. apply fold_addTopicsOf_NoDup, NoDup_nil_2. Qed.

End TopicFacts.

(** ** TokenOptimizer: summarizeHistory *)

Section SummarizeFacts.

Import TokenOptimizer.

Lemma summarizeHistory_short (history : list Turn) :
  (length history <= 2)%nat -> summarizeHistory history = history.
Proof.
  intros H. unfold summarizeHistory.
  now replace (Z.of_nat (length history) <=? 2) with true
    by (symmetry; apply Z.leb_le; lia).
Qed.

Lemma summarizeHistory_long (history : list Turn) :
  (2 < length history)%nat ->
  summarizeHistory history
  = summaryTurn (take (length history - 2) history)
      :: drop (length history - 2) history.
Proof.
  intros H. unfold summarizeHistory.
  replace (Z.of_nat (length history) <=? 2) with false
    by (symmetry; apply Z.leb_gt; lia).
  destruct (slice_split history 2) as [Holder Hrecent]; [lia|].
  cbv zeta. change (-2) with (- Z.of_nat 2). now rewrite Holder, Hrecent.
Qed.

(** The topics of one exchange come out in the order of the table. *)
Lemma extractTopics_one (exchange : Turn) :
  exists b1 b2 b3 b4 b5 : bool,
    extractTopics [exchange]
    = (if b1 then ["savings"] else []) ++ (if b2 then ["credit"] else [])
      ++ (if b3 then ["investment"] else []) ++ (if b4 then ["budget"] else [])
      ++ (if b5 then ["loans"] else []).
Proof.
  exists (mentions (exchangeText exchange) ["savings"; "save"; "interest"]),
         (mentions (exchangeText exchange) ["credit"; "score"; "report"]),
         (mentions (exchangeText exchange) ["invest"; "portfolio"; "stocks"]),
         (mentions (exchangeText exchange) ["budget"; "expenses"; "spending"]),
         (mentions (exchangeText exchange) ["loan"; "mortgage"; "debt"]).
  unfold extractTopics. cbn [fold_left].
  unfold addTopicsOf, bankingKeywords. cbn [fold_left fst snd].
  destruct (mentions _ ["savings"; "save"; "interest"]),
           (mentions _ ["credit"; "score"; "report"]),
           (mentions _ ["invest"; "portfolio"; "stocks"]),
           (mentions _ ["budget"; "expenses"; "spending"]),
           (mentions _ ["loan"; "mortgage"; "debt"]); reflexivity.
Qed.

(** Summarizing the summary of one exchange finds the same topics again:
    each topic's name contains one of its own keywords, and the fixed
    text of a summary contains none. *)
Lemma extractTopics_summary_of_one (exchange : Turn) :
  extractTopics [summaryTurn [exchange]] = extractTopics [exchange].
Proof.
  unfold summaryTurn.
  destruct (extractTopics_one exchange) as (b1 & b2 & b3 & b4 & b5 & ->).
  destruct b1, b2, b3, b4, b5; vm_compute; reflexivity.
Qed.

Lemma summarizeHistory_twice_three (a b c : Turn) :
  summarizeHistory (summarizeHistory [a; b; c]) = summarizeHistory [a; b; c].
Proof.
  rewrite (summarizeHistory_long [a; b; c]) by (simpl; lia).
  cbn [length Nat.sub take drop].
  rewrite summarizeHistory_long by (simpl; lia).
  cbn [length Nat.sub take drop].
  unfold summaryTurn at 1 3. now rewrite extractTopics_summary_of_one.
Qed.

End SummarizeFacts.

(** ** TokenOptimizer: optimizePrompt *)

Section OptimizeFacts.

Import TokenOptimizer.

Variable formatHistory : list Turn -> string.

(** The loop is entered with an estimate that leaves the history out, so a
    system prompt and user message that fit the budget end it at once. *)
Lemma truncateLoop_fits (budget fixedTokens : Z) (history : list Turn) :
  fixedTokens <= budget ->
  truncateLoop formatHistory budget fixedTokens fixedTokens history
  = (fixedTokens, history).
Proof.
  intros Hfit. destruct history as [|t rest]; [reflexivity|].
  cbn [truncateLoop].
  now replace (fixedTokens >? budget) with false by (symmetry; rewrite Z.gtb_ltb; apply Z.ltb_ge; lia).
Qed.

Lemma optimizePromptWithin_fits (budget : Z) (systemPrompt userMessage : string)
    (history : list Turn) :
  estimateTokens systemPrompt + estimateTokens userMessage <= budget ->
  optimizePromptWithin formatHistory budget systemPrompt history userMessage
  = history.
Proof.
  intros Hfit. unfold optimizePromptWithin. cbv zeta.
  rewrite truncateLoop_fits by exact Hfit.
  now replace (_ >? budget) with false by (symmetry; rewrite Z.gtb_ltb; apply Z.ltb_ge; lia).
Qed.

(** Once the loop is entered with more than the budget it cannot stop
    before the history is empty: every estimate it recomputes still contains
    the system prompt and the user message. *)
Lemma truncateLoop_over (budget fixedTokens currentTokens : Z)
    (history : list Turn) :
  budget < fixedTokens -> budget < currentTokens ->
  (forall h, 0 <= estimateTokens (formatHistory h)) ->
  snd (truncateLoop formatHistory budget fixedTokens currentTokens history) = [].
Proof.
  intros Hfixed Hcur Hpos. revert currentTokens Hcur.
  induction history as [|t rest IH]; intros currentTokens Hcur; [reflexivity|].
  cbn [truncateLoop].
  replace (currentTokens >? budget) with true by (symmetry; rewrite Z.gtb_ltb; apply Z.ltb_lt; lia).
  apply IH. specialize (Hpos rest). lia.
Qed.

End OptimizeFacts.

Lemma estimateTokens_nonneg (text : string) : 0 <= TokenOptimizer.estimateTokens text.
Proof. unfold TokenOptimizer.estimateTokens. apply Z.div_pos; lia. Qed.

(** X5: what [optimizePrompt] returns is the whole history or none of it,
    for every budget and every [formatHistory]. *)
Lemma optimizePrompt_all_or_nothing (formatHistory : list Turn -> string)
    (budget : Z) (systemPrompt userMessage : string) (history : list Turn) :
  let result := TokenOptimizer.optimizePromptWithin formatHistory budget
                  systemPrompt history userMessage in
  result = history \/ result = [].
Proof.
  cbv zeta.
  destruct (Z_le_gt_dec (TokenOptimizer.estimateTokens systemPrompt
                         + TokenOptimizer.estimateTokens userMessage) budget) as [Hfit|Hover].
  - left. now apply optimizePromptWithin_fits.
  - right. unfold TokenOptimizer.optimizePromptWithin. cbv zeta.
    set (fixedTokens := TokenOptimizer.estimateTokens systemPrompt
                        + TokenOptimizer.estimateTokens userMessage) in *.
    assert (Hlt : budget < fixedTokens) by lia.
    pose proof (truncateLoop_over formatHistory budget fixedTokens fixedTokens
                  history Hlt Hlt
                  (fun h => estimateTokens_nonneg (formatHistory h))) as Hnil.
    destruct (TokenOptimizer.truncateLoop _ _ _ _ history) as [cur remaining].
    simpl in Hnil. subst remaining. now destruct (cur >? budget).
Qed.

(** C1, on the code as written: a 200-character system prompt (estimate 50)
    and a 40-character user message (estimate 10) fit the budget of 3500, so
    [optimizePrompt] returns all five turns of 2800 characters (estimate 700
    each) whatever [formatHistory] is: the request is estimated at 3560
    tokens, over the budget, and no turn was dropped. *)
Theorem optimizePrompt_keeps_oversized_history :
  forall formatHistory : list Turn -> string,
    let systemPrompt := JS.repeatString "s" 200 in
    let userMessage := JS.repeatString "u" 40 in
    let history := repeat (mkTurn user (Some (JS.repeatString "h" 2800))) 5 in
    TokenOptimizer.estimateTokens systemPrompt = 50
    /\ TokenOptimizer.estimateTokens userMessage = 10
    /\ Forall (fun t => TokenOptimizer.estimateTokens (default "" (content t)) = 700)
              history
    /\ TokenOptimizer.optimizePrompt formatHistory systemPrompt history userMessage
       = history
    /\ length history = 5%nat
    /\ 50 + 10 + 5 * 700 > TokenOptimizer.maxTokens.
Proof.
  intros formatHistory systemPrompt userMessage history.
  assert (Hs : TokenOptimizer.estimateTokens systemPrompt = 50) by (vm_compute; reflexivity).
  assert (Hu : TokenOptimizer.estimateTokens userMessage = 10) by (vm_compute; reflexivity).
  split; [exact Hs|]. split; [exact Hu|]. split; [|split; [|split]].
  - subst history. cbn [repeat]. repeat apply Forall_cons_2; try apply Forall_nil_2;
      vm_compute; reflexivity.
  - apply optimizePromptWithin_fits. rewrite Hs, Hu. unfold TokenOptimizer.maxTokens. lia.
  - reflexivity.
  - unfold TokenOptimizer.maxTokens. lia.
Qed.

(** The scenario of the specification, with the budget set to 100: estimates
    50 and 10, five turns of estimate 30. All five turns come back, where at
    most one fits the 40 tokens left. *)
Lemma optimizePrompt_scenario_keeps_five_turns :
  forall formatHistory : list Turn -> string,
    let systemPrompt := JS.repeatString "s" 200 in
    let userMessage := JS.repeatString "u" 40 in
    let history := repeat (mkTurn user (Some (JS.repeatString "h" 120))) 5 in
    Forall (fun t => TokenOptimizer.estimateTokens (default "" (content t)) = 30)
           history
    /\ length (TokenOptimizer.optimizePromptWithin formatHistory 100
                 systemPrompt history userMessage) = 5%nat.
Proof.
  intros formatHistory systemPrompt userMessage history. split.
  - subst history. cbn [repeat]. repeat apply Forall_cons_2; try apply Forall_nil_2;
      vm_compute; reflexivity.
  - rewrite optimizePromptWithin_fits; [reflexivity|].
    vm_compute. discriminate.
Qed.

(** C3, as stated, fails at length 3 = K + 1: the summarizer keeps the
    last two turns and replaces the first by a summary turn. *)
Lemma summarizeHistory_changes_three_turns :
  let history := [ mkTurn user (Some "How do I save more?");
                   mkTurn assistant (Some "Open a savings account.");
                   mkTurn user (Some "Thanks") ] in
  (length history <= 2 + 1)%nat
  /\ TokenOptimizer.summarizeHistory history
     = [ mkTurn system (Some "Previous conversation covered: savings");
         mkTurn assistant (Some "Open a savings account.");
         mkTurn user (Some "Thanks") ]
  /\ TokenOptimizer.summarizeHistory history <> history.
Proof.
  cbv zeta. split; [simpl; lia|]. split; [vm_compute; reflexivity|].
  vm_compute. discriminate.
Qed.

(** C3 (amended): a sequence of at most K = 2 turns is returned unchanged,
    and on every sequence of at most K + 1 = 3 turns summarizing twice
    equals summarizing once. *)
Theorem summarizeHistory_idempotent_up_to_three (history : list Turn) :
  (length history <= 3)%nat ->
  ((length history <= 2)%nat -> TokenOptimizer.summarizeHistory history = history)
  /\ TokenOptimizer.summarizeHistory (TokenOptimizer.summarizeHistory history)
     = TokenOptimizer.summarizeHistory history.
Proof.
  intros Hlen. split; [apply summarizeHistory_short|].
  destruct history as [|a [|b [|c [|d rest]]]];
    try (rewrite !summarizeHistory_short by (simpl; lia); reflexivity).
  - apply summarizeHistory_twice_three.
  - simpl in Hlen. lia.
Qed.

Lemma summarizeHistory_idempotent_up_to_three_witness :
  let history := [ mkTurn user (Some "Is my credit score fine for a mortgage?");
                   mkTurn assistant (Some "It is.");
                   mkTurn user (Some "Good") ] in
  TokenOptimizer.summarizeHistory (TokenOptimizer.summarizeHistory history)
  = TokenOptimizer.summarizeHistory history.
Proof.
  cbv zeta.
  apply (summarizeHistory_idempotent_up_to_three
           [ mkTurn user (Some "Is my credit score fine for a mortgage?");
             mkTurn assistant (Some "It is.");
             mkTurn user (Some "Good") ]).
  simpl. lia.
Defined.

(** Beyond three turns the summarizer is not idempotent: topics are listed
    in the order the older turns first mention them, and a second pass
    relists them in the order of the table. *)
Lemma summarizeHistory_not_idempotent_on_four_turns :
  let history := [ mkTurn user (Some "About my loan");
                   mkTurn user (Some "and my savings");
                   mkTurn assistant (Some "Yes?");
                   mkTurn user (Some "Never mind") ] in
  TokenOptimizer.summarizeHistory history
  = [ mkTurn system (Some "Previous conversation covered: loans, savings");
      mkTurn assistant (Some "Yes?"); mkTurn user (Some "Never mind") ]
  /\ TokenOptimizer.summarizeHistory (TokenOptimizer.summarizeHistory history)
     = [ mkTurn system (Some "Previous conversation covered: savings, loans");
         mkTurn assistant (Some "Yes?"); mkTurn user (Some "Never mind") ].
Proof. cbv zeta. split; vm_compute; reflexivity. Qed.

(** C9, as stated, fails below its threshold of 20: four turns are already
    summarized. *)
Lemma summarizeHistory_summarizes_four_turns :
  let history := [ mkTurn user (Some "What is a good BUDGET?");
                   mkTurn assistant (Some "Track your spending first.");
                   mkTurn user (Some "And then?");
                   mkTurn assistant (Some "Pay down debt.") ] in
  (length history <= 20)%nat
  /\ TokenOptimizer.summarizeHistory history
     = [ mkTurn system (Some "Previous conversation covered: budget");
         mkTurn user (Some "And then?");
         mkTurn assistant (Some "Pay down debt.") ]
  /\ TokenOptimizer.summarizeHistory history <> history.
Proof.
  cbv zeta. split; [simpl; lia|]. split; [vm_compute; reflexivity|].
  vm_compute. discriminate.
Qed.

(** C9 (amended): the trigger threshold is the keep-recent count, 2. A
    sequence of at most 2 turns is returned unchanged. A longer one is
    returned as one system-role turn followed by its last 2 turns in their
    order; the text of that turn is "Previous conversation covered: " and
    then, separated by ", " and each listed once, the topics of the table
    one of whose keywords occurs as a substring of the lower-cased content
    of one of the older turns. *)
Theorem summarizeHistory_spec (history : list Turn) :
  ((length history <= 2)%nat -> TokenOptimizer.summarizeHistory history = history)
  /\ ((2 < length history)%nat ->
      exists older recent : list Turn,
        history = older ++ recent
        /\ length recent = 2%nat
        /\ TokenOptimizer.summarizeHistory history
           = mkTurn system
               (Some ("Previous conversation covered: "
                      +:+ JS.join ", " (TokenOptimizer.extractTopics older)))
             :: recent
        /\ NoDup (TokenOptimizer.extractTopics older)
        /\ forall topic : string,
             topic ∈ TokenOptimizer.extractTopics older
             <-> exists keywords exchange keyword pre post,
                   (topic, keywords) ∈ TokenOptimizer.bankingKeywords
                   /\ exchange ∈ older /\ keyword ∈ keywords
                   /\ TokenOptimizer.exchangeText exchange
                      = pre +:+ keyword +:+ post).
Proof.
  split; [apply summarizeHistory_short|]. intros Hlen.
  exists (take (length history - 2) history), (drop (length history - 2) history).
  split; [now rewrite take_drop|].
  split; [rewrite length_drop; lia|].
  split; [now apply summarizeHistory_long|].
  split; [apply extractTopics_NoDup | apply extractTopics_spec].
Qed.

Lemma summarizeHistory_spec_witness :
  let history := [ mkTurn user (Some "Which STOCKS for my portfolio?");
                   mkTurn assistant (Some "That depends.");
                   mkTurn user (Some "On what?");
                   mkTurn assistant (Some "On your budget.") ] in
  exists older recent : list Turn,
    history = older ++ recent
    /\ length recent = 2%nat
    /\ TokenOptimizer.summarizeHistory history
       = mkTurn system
           (Some ("Previous conversation covered: "
                  +:+ JS.join ", " (TokenOptimizer.extractTopics older)))
         :: recent
    /\ NoDup (TokenOptimizer.extractTopics older)
    /\ forall topic : string,
         topic ∈ TokenOptimizer.extractTopics older
         <-> exists keywords exchange keyword pre post,
               (topic, keywords) ∈ TokenOptimizer.bankingKeywords
               /\ exchange ∈ older /\ keyword ∈ keywords
               /\ TokenOptimizer.exchangeText exchange
                  = pre +:+ keyword +:+ post.
Proof.
  cbv zeta.
  apply (proj2 (summarizeHistory_spec
                  [ mkTurn user (Some "Which STOCKS for my portfolio?");
                    mkTurn assistant (Some "That depends.");
                    mkTurn user (Some "On what?");
                    mkTurn assistant (Some "On your budget.") ])).
  simpl. lia.
Defined.

(** ** Binary64 arithmetic: signs *)

Section FloatFacts.

Local Open Scope float_scope.

Lemma binary_round_aux_signClear (m e : Z) (l : location) :
  signClear (binary_round_aux prec emax false m e l).
Proof.
  unfold binary_round_aux.
  destruct (shr_fexp prec emax m e l) as [mrs' e'].
  destruct (shr_fexp prec emax _ e' loc_Exact) as [mrs'' e''].
  destruct (shr_m mrs''); simpl; [reflexivity | | exact I].
  destruct (e'' <=? emax - prec)%Z; reflexivity.
Qed.

Lemma binary_normalize_signClear (m e : Z) :
  (0 <= m)%Z -> signClear (binary_normalize prec emax m e false).
Proof.
  intros Hm. destruct m as [|p|p]; [reflexivity | | lia].
  unfold binary_normalize, binary_round.
  destruct (shl_align _ _ _) as [mz ez]. apply binary_round_aux_signClear.
Qed.

Lemma SF64mul_signClear (x y : spec_float) :
  signClear x -> signClear y -> signClear (SF64mul x y).
Proof.
  destruct x as [sx|sx| |sx mx ex], y as [sy|sy| |sy my ey]; simpl;
    intros Hx Hy; subst; try reflexivity; try exact I.
  apply binary_round_aux_signClear.
Qed.

Lemma SF64div_signClear (x y : spec_float) :
  signClear x -> signClear y -> signClear (SF64div x y).
Proof.
  destruct x as [sx|sx| |sx mx ex], y as [sy|sy| |sy my ey]; simpl;
    intros Hx Hy; subst; try reflexivity; try exact I.
  destruct (SFdiv_core_binary _ _ _ _ _ _) as [[mz ez] lz].
  apply binary_round_aux_signClear.
Qed.

Lemma SF64add_signClear (x y : spec_float) :
  signClear x -> signClear y -> signClear (SF64add x y).
Proof.
  destruct x as [sx|sx| |sx mx ex], y as [sy|sy| |sy my ey]; simpl;
    intros Hx Hy; subst; try reflexivity; try exact I.
  apply binary_normalize_signClear. simpl. lia.
Qed.

(** Adding to zero changes nothing, unless what is added is negative zero. *)
Lemma zero_plus (x : float) : signClear (Prim2SF x) -> 0 + x = x.
Proof.
  intros Hx. apply Prim2SF_inj. rewrite FloatAxioms.add_spec.
  change (Prim2SF 0) with (S754_zero false).
  destruct (Prim2SF x) as [s|s| |s m e]; simpl in *; subst; reflexivity.
Qed.

End FloatFacts.

(** ** CostTracker: the price of a call *)

Section CostFacts.

Import CostTracker.
Local Open Scope float_scope.

Lemma number_signClear (n : N) : signClear (Prim2SF (number n)).
Proof.
  unfold number. rewrite of_uint63_spec.
  apply binary_normalize_signClear, Uint63.to_Z_bounded.
Qed.

(** What [pricing[model]] evaluates to, for every key. *)
Lemma getProperty_cases (model : string) :
  (model = "gpt-4" /\ getProperty model = Own (mkRates 0.03 0.06))
  \/ (model = "gpt-3.5-turbo" /\ getProperty model = Own (mkRates 0.0005 0.0015))
  \/ (model <> "gpt-4" /\ model <> "gpt-3.5-turbo"
      /\ In model objectPrototypeKeys /\ getProperty model = Inherited)
  \/ (model <> "gpt-4" /\ model <> "gpt-3.5-turbo"
      /\ ~ In model objectPrototypeKeys /\ getProperty model = Undefined).
Proof.
  unfold getProperty, pricing.
  destruct (decide (model = "gpt-4")) as [->|H4]; [left; split; reflexivity|].
  rewrite lookup_insert_ne by congruence.
  destruct (decide (model = "gpt-3.5-turbo")) as [->|H35];
    [right; left; split; reflexivity|].
  rewrite lookup_insert_ne by congruence. rewrite lookup_empty.
  destruct (existsb (String.eqb model) objectPrototypeKeys) eqn:E.
  - right; right; left. repeat split; try assumption.
    apply existsb_exists in E as [k [Hk Heq]].
    now apply String.eqb_eq in Heq as ->.
  - right; right; right. repeat split; try assumption.
    intros Hin. assert (existsb (String.eqb model) objectPrototypeKeys = true);
      [|congruence].
    apply existsb_exists. exists model. split; [exact Hin | apply String.eqb_refl].
Qed.

Lemma rates_signClear (p : Property) :
  p = Own (mkRates 0.03 0.06) \/ p = Own (mkRates 0.0005 0.0015)
  \/ p = Inherited \/ p = Undefined ->
  signClear (Prim2SF (inputOf p)) /\ signClear (Prim2SF (outputOf p)).
Proof. intros [-> | [-> | [-> | ->]]]; split; vm_compute; auto. Qed.

Lemma modelPricing_cases (model : string) :
  let p := orElse (getProperty model) (getProperty "gpt-3.5-turbo") in
  p = Own (mkRates 0.03 0.06) \/ p = Own (mkRates 0.0005 0.0015)
  \/ p = Inherited \/ p = Undefined.
Proof.
  cbv zeta.
  destruct (getProperty_cases model)
    as [[_ ->] | [[_ ->] | [(_ & _ & _ & ->) | (_ & _ & _ & ->)]]]; simpl; auto.
Qed.

(** A cost is never negative zero. *)
Lemma calculateCost_signClear (usage : Usage) (model : string) :
  signClear (Prim2SF (calculateCost usage model)).
Proof.
  unfold calculateCost. cbv zeta.
  destruct (rates_signClear _ (modelPricing_cases model)) as [Hin Hout].
  rewrite FloatAxioms.add_spec, !FloatAxioms.div_spec, !FloatAxioms.mul_spec.
  assert (Hk : signClear (Prim2SF 1000)) by (vm_compute; reflexivity).
  apply SF64add_signClear; apply SF64div_signClear; try exact Hk;
    apply SF64mul_signClear; auto using number_signClear.
Qed.

End CostFacts.

(** ** CostTracker: claims *)

(** C8: for the two models of the pricing table the cost is
    [prompt_tokens * input / 1000 + completion_tokens * output / 1000] at the
    rates 0.0005 / 0.0015 and 0.03 / 0.06; [trackUsage] returns that cost and
    adds it to the running daily total; on a new tracker, recording two
    usages leaves the sum of their two costs as the total. The arithmetic is
    that of the code: binary64. *)
Theorem trackUsage_adds_the_cost :
  forall (t : CostTracker.Tracker) (u u1 u2 : CostTracker.Usage)
         (today : string) (dailyLimit monthlyLimit : float),
    CostTracker.calculateCost u "gpt-3.5-turbo"
    = (CostTracker.number (CostTracker.prompt_tokens u) * 0.0005 / 1000
       + CostTracker.number (CostTracker.completion_tokens u) * 0.0015 / 1000)%float
    /\ CostTracker.calculateCost u "gpt-4"
       = (CostTracker.number (CostTracker.prompt_tokens u) * 0.03 / 1000
          + CostTracker.number (CostTracker.completion_tokens u) * 0.06 / 1000)%float
    /\ (forall model : string,
          snd (CostTracker.trackUsage t u model) = CostTracker.calculateCost u model
          /\ CostTracker.totalCost
               (CostTracker.dailyUsage (fst (fst (CostTracker.trackUsage t u model))))
             = (CostTracker.totalCost (CostTracker.dailyUsage t)
                + CostTracker.calculateCost u model)%float)
    /\ (forall m1 m2 : string,
          CostTracker.totalCost
            (CostTracker.dailyUsage
               (fst (CostTracker.trackAll
                       (CostTracker.constructor today dailyLimit monthlyLimit)
                       [(u1, m1); (u2, m2)])))
          = (CostTracker.calculateCost u1 m1 + CostTracker.calculateCost u2 m2)%float).
Proof.
  intros t u u1 u2 today dailyLimit monthlyLimit.
  split; [reflexivity|]. split; [reflexivity|]. split.
  - intros model. split; reflexivity.
  - intros m1 m2. cbn [CostTracker.trackAll CostTracker.trackUsage fst snd
                       CostTracker.dailyUsage CostTracker.totalCost
                       CostTracker.constructor].
    now rewrite zero_plus by apply calculateCost_signClear.
Qed.

(** X9: a model that is neither an entry of the pricing table nor a member
    of Object.prototype costs what gpt-3.5-turbo costs. *)
Lemma calculateCost_defaults (u : CostTracker.Usage) (model : string) :
  model <> "gpt-4" -> ~ In model CostTracker.objectPrototypeKeys ->
  CostTracker.calculateCost u model = CostTracker.calculateCost u "gpt-3.5-turbo".
Proof.
  intros H4 Hproto. unfold CostTracker.calculateCost.
  destruct (getProperty_cases model)
    as [[-> _] | [[-> _] | [(_ & _ & Hin & _) | (_ & _ & _ & ->)]]];
    [congruence | reflexivity | contradiction | reflexivity].
Qed.

(** C10, on the code as written: "constructor" is no entry of the pricing
    table, yet [pricing["constructor"]] is the function every object
    inherits; it is truthy, so the default is not taken, and it has no
    rates, so the cost is NaN and not the 0.002 of gpt-3.5-turbo; the daily
    total is NaN from then on. *)
Theorem calculateCost_inherited_key_is_nan :
  let usage := CostTracker.mkUsage 1000 1000 2000 in
  let tracker := CostTracker.constructor "Mon Nov 02 2026" nan nan in
  CostTracker.pricing !! "constructor" = None
  /\ CostTracker.calculateCost usage "constructor" = nan
  /\ CostTracker.calculateCost usage "gpt-3.5-turbo" = 0.002%float
  /\ CostTracker.calculateCost usage "gpt-5" = 0.002%float
  /\ CostTracker.totalCost
       (CostTracker.dailyUsage
          (fst (CostTracker.trackAll tracker
                  [(usage, "constructor"); (usage, "gpt-3.5-turbo")])))
     = nan.
Proof. cbv zeta. repeat split; vm_compute; reflexivity. Qed.

(** ** CostTracker: alerts *)

Section AlertFacts.

Import CostTracker.

Lemma alertCount_app (level : Level) (xs ys : list Event) :
  alertCount level (xs ++ ys) = (alertCount level xs + alertCount level ys)%nat.
Proof. unfold alertCount. now rewrite filter_app, length_app. Qed.

Lemma checkBudgetAlerts_count (level : Level) (t : Tracker) :
  alertCount level (checkBudgetAlerts t) = if reached level t then 1%nat else 0%nat.
Proof.
  unfold checkBudgetAlerts, reached.
  destruct (geb (dailyPercentage t) 90), (geb (dailyPercentage t) 75),
           (geb (dailyPercentage t) 50), level; reflexivity.
Qed.

Lemma trackUsage_events (t : Tracker) (usage : Usage) (model : string) :
  snd (fst (trackUsage t usage model))
  = [UsageLogged (total_tokens usage) (calculateCost usage model) model]
      ++ checkBudgetAlerts (fst (fst (trackUsage t usage model)))
      ++ [UsageStored usage (calculateCost usage model) model].
Proof. reflexivity. Qed.

Lemma alertCount_other (level : Level) (e : Event) :
  (forall l text amount, e <> AlertSent l text amount) -> alertCount level [e] = 0%nat.
Proof.
  intros Hother. destruct e as [tokens cost model | l text amount | usage cost model];
    [destruct level; reflexivity | now destruct (Hother l text amount)
     | destruct level; reflexivity].
Qed.

Lemma trackUsage_count (level : Level) (t : Tracker) (usage : Usage)
    (model : string) :
  alertCount level (snd (fst (trackUsage t usage model)))
  = if reached level (fst (fst (trackUsage t usage model))) then 1%nat else 0%nat.
Proof.
  rewrite trackUsage_events, !alertCount_app, checkBudgetAlerts_count.
  rewrite !alertCount_other by discriminate. lia.
Qed.

Lemma reached_exclusive (t : Tracker) :
  ((if reached CRITICAL t then 1 else 0) + (if reached WARNING t then 1 else 0)
   + (if reached INFO t then 1 else 0) <= 1)%nat.
Proof.
  unfold reached.
  destruct (geb (dailyPercentage t) 90), (geb (dailyPercentage t) 75),
           (geb (dailyPercentage t) 50); simpl; lia.
Qed.

Lemma trackAll_count (level : Level) (calls : list (Usage * string)) (t : Tracker) :
  alertCount level (snd (trackAll t calls))
  = length (filter (fun t' => reached level t' = true) (trackersAfter t calls)).
Proof.
  revert t. induction calls as [|[usage model] rest IH]; intros t; [reflexivity|].
  cbn [trackAll trackersAfter].
  pose proof (trackUsage_count level t usage model) as Hone.
  destruct (trackUsage t usage model) as [[t' events] cost]. cbn [fst snd] in *.
  specialize (IH t'). destruct (trackAll t' rest) as [t'' later]. cbn [fst snd] in *.
  rewrite alertCount_app, Hone, IH, filter_cons.
  destruct (reached level t') eqn:E.
  - rewrite decide_True by reflexivity. reflexivity.
  - rewrite decide_False by discriminate. reflexivity.
Qed.

End AlertFacts.

(** C2, as stated, fails: a new tracker with the default daily budget of 50
    records a call that costs 60 and then one that costs 0.0009; both leave
    the total above 90% and each emits the CRITICAL alert, twice within the
    day. *)
Lemma trackUsage_repeats_critical_alert :
  let tracker := CostTracker.constructor "Mon Nov 02 2026" nan nan in
  let calls := [ (CostTracker.mkUsage 2000000 0 2000000, "gpt-4");
                 (CostTracker.mkUsage 10 10 20, "gpt-4") ] in
  CostTracker.alertCount CostTracker.CRITICAL (snd (CostTracker.trackAll tracker calls))
  = 2%nat
  /\ CostTracker.date (CostTracker.dailyUsage (fst (CostTracker.trackAll tracker calls)))
     = CostTracker.date (CostTracker.dailyUsage tracker).
Proof. cbv zeta. split; vm_compute; reflexivity. Qed.

(** C2 (amended): a call of [trackUsage] emits at most one alert, the one
    for the highest of the thresholds 90%, 75% and 50% that the running
    daily total has reached after the call; nothing remembers an alert, so
    over a day each threshold's alert is emitted once for every call that
    leaves the total in its band. *)
Theorem trackUsage_alerts_every_call_in_band :
  forall (t : CostTracker.Tracker) (calls : list (CostTracker.Usage * string))
         (usage : CostTracker.Usage) (model : string) (level : CostTracker.Level),
    let events := snd (fst (CostTracker.trackUsage t usage model)) in
    (CostTracker.alertCount CostTracker.CRITICAL events
     + CostTracker.alertCount CostTracker.WARNING events
     + CostTracker.alertCount CostTracker.INFO events <= 1)%nat
    /\ CostTracker.alertCount level events
       = (if reached level (fst (fst (CostTracker.trackUsage t usage model)))
          then 1%nat else 0%nat)
    /\ CostTracker.alertCount level (snd (CostTracker.trackAll t calls))
       = length (filter (fun t' => reached level t' = true) (trackersAfter t calls)).
Proof.
  intros t calls usage model level events. subst events.
  split; [|split].
  - rewrite !trackUsage_count. apply reached_exclusive.
  - apply trackUsage_count.
  - apply trackAll_count.
Qed.

(** ** Cache keys *)

Section KeyFacts.

(** Lower-casing moves no character into or out of [\w] or [\s]. *)
Lemma lowerChar_keeps_class (c : ascii) :
  JS.isWordChar (JS.lowerChar c) = JS.isWordChar c
  /\ JS.isSpaceChar (JS.lowerChar c) = JS.isSpaceChar c.
Proof. destruct c as [[] [] [] [] [] [] [] []]; split; reflexivity. Qed.

Lemma strip_lower_cons (c : ascii) (s : string) :
  JS.stripNonWordNonSpace (JS.toLowerCase (String c s))
  = if JS.isWordChar c || JS.isSpaceChar c
    then String (JS.lowerChar c) (JS.stripNonWordNonSpace (JS.toLowerCase s))
    else JS.stripNonWordNonSpace (JS.toLowerCase s).
Proof.
  unfold JS.stripNonWordNonSpace, JS.toLowerCase.
  cbn [JS.mapString JS.filterString].
  destruct (lowerChar_keeps_class c) as [-> ->]. reflexivity.
Qed.


End KeyFacts.





(** The two keys of the example, computed. *)
Lemma savings_rate_keys :
  CacheStrategy.normalizeMessage "What's my Savings rate?" = "whats my savings rate"
  /\ CacheStrategy.normalizeMessage "whats my savings rate" = "whats my savings rate"
  /\ CacheService.createCacheKey "What's my Savings rate?"
     = "response:d2hhdHMgbXkgc2F2aW5ncyByYXRl".
Proof. repeat split; vm_compute; reflexivity. Qed.

(** ** Cache lookups and a store that fails *)

Section LookupFacts.

Context {Response : Type} (JSON : Json Response).

(** [CacheService.getCachedResponse] never throws, and answers "absent" when
    the store fails. *)
Lemma CacheService_lookup_never_throws (redis : Redis.Client) (userMessage : string) :
  (exists answer, CacheService.getCachedResponse JSON redis userMessage
                  = JS.Return answer)
  /\ (Redis.reachable redis = false ->
      CacheService.getCachedResponse JSON redis userMessage = JS.Return None).
Proof.
  unfold CacheService.getCachedResponse, Redis.get. cbv zeta.
  destruct (Redis.reachable redis); cbn [JS.bind JS.try_catch].
  - split; [|discriminate].
    destruct (Redis.truthy _) as [text|]; [|now eexists].
    destruct (parse JSON text) as [response|]; cbn [JS.bind JS.try_catch];
      [|now eexists].
    destruct (isObject JSON response); now eexists.
  - split; [now eexists | reflexivity].
Qed.

(** [CacheStrategy.getCachedResponse] has no [try]: the error of the store
    is the error of the lookup. *)
Lemma CacheStrategy_lookup_throws
    (findSimilarQuestion : string -> JS.Completion Error (option string))
    (this : CacheStrategy.State) (message : string) :
  Redis.reachable (CacheStrategy.redis this) = false ->
  CacheStrategy.getCachedResponse JSON findSimilarQuestion this message
  = JS.Throw Redis.unreachable.
Proof.
  intros Hdown. unfold CacheStrategy.getCachedResponse, Redis.get. cbv zeta.
  now rewrite Hdown.
Qed.

End LookupFacts.

(** C7, on the code as written: with a store that cannot be reached,
    [CacheService.getCachedResponse] answers "absent" as the claim says, and
    [CacheStrategy.getCachedResponse] throws the store's error to its
    caller. *)
Theorem CacheStrategy_lookup_propagates_store_error :
  let redis := Redis.mkClient ∅ false in
  CacheService.getCachedResponse jsonOfBool redis "What's my Savings rate?"
  = JS.Return None
  /\ CacheStrategy.getCachedResponse jsonOfBool (fun _ => JS.Return None)
       (CacheStrategy.mkState redis ∅) "What's my Savings rate?"
     = JS.Throw (mkError "connect ECONNREFUSED").
Proof. cbv zeta. split; reflexivity. Qed.

(** ** OpenAIService: the message list and the gateway *)

Section GatewayFacts.

Import OpenAIService.

Lemma formatConversationHistory_shape (systemPrompt currentMessage : string)
    (history : list Exchange) :
  exists between : list Turn,
    formatConversationHistory systemPrompt history currentMessage
    = mkTurn system (Some systemPrompt)
        :: between ++ [mkTurn user (Some currentMessage)]
    /\ (length between <= 20)%nat.
Proof.
  unfold formatConversationHistory. cbv zeta.
  eexists. split; [reflexivity|].
  assert (Hrecent : (length (JS.slice history (-10) None) <= 10)%nat).
  { unfold JS.slice, JS.relativeIndex. cbv zeta.
    change (-10 <? 0) with true. cbv iota.
    rewrite length_take, length_drop. lia. }
  assert (Hpairs : forall recent : list Exchange,
             length (flat_map (fun item => [ mkTurn user (Some (userText item));
                                             mkTurn assistant (Some (assistantText item)) ])
                              recent)
             = (2 * length recent)%nat).
  { intros recent. induction recent as [|item recent IH]; simpl; lia. }
  rewrite Hpairs. lia.
Qed.

End GatewayFacts.

(** C5: whatever the history, the message list starts with the system-prompt
    turn and ends with a user turn that holds the new message unchanged; it
    is the list [generateResponse] sends. [optimizePrompt] returns history
    turns only and takes no part in either. *)
Theorem formatConversationHistory_keeps_system_and_user :
  forall (systemPrompt currentMessage : string)
         (history : list OpenAIService.Exchange),
    let messages :=
      OpenAIService.formatConversationHistory systemPrompt history currentMessage in
    head messages = Some (mkTurn system (Some systemPrompt))
    /\ last messages = Some (mkTurn user (Some currentMessage))
    /\ (2 <= length messages)%nat.
Proof.
  intros systemPrompt currentMessage history messages. subst messages.
  destruct (formatConversationHistory_shape systemPrompt currentMessage history)
    as [between [-> _]].
  split; [reflexivity|]. split.
  - change (mkTurn system (Some systemPrompt)
              :: between ++ [mkTurn user (Some currentMessage)])
      with ((mkTurn system (Some systemPrompt) :: between)
              ++ [mkTurn user (Some currentMessage)]).
    apply last_snoc.
  - cbn [length]. rewrite length_app. simpl. lia.
Qed.

(** The request [generateResponse] sends holds that message list; when it
    is answered, the reply is the text and the usage of the answer. *)
Lemma generateResponse_success
    (create : OpenAIService.Request
              -> JS.Completion OpenAIService.ClientError OpenAIService.ApiResponse)
    (configuredModel : string) (configuredMaxTokens : Z)
    (message : string) (history : list OpenAIService.Exchange)
    (response : OpenAIService.ApiResponse) :
  create (OpenAIService.mkRequest configuredModel
            (OpenAIService.formatConversationHistory
               OpenAIService.buildBankingSystemPrompt history message)
            configuredMaxTokens 0.7 0.1 0.1)
  = JS.Return response ->
  OpenAIService.generateResponse create configuredModel configuredMaxTokens
    message history
  = ([OpenAIService.UsageTracked (OpenAIService.usage response)
        (OpenAIService.calculateCost (OpenAIService.usage response))],
     JS.Return (OpenAIService.mkReply (OpenAIService.choiceContent response)
                                      (OpenAIService.usage response))).
Proof.
  intros Hok. unfold OpenAIService.generateResponse. cbv zeta. now rewrite Hok.
Qed.

(** C4, as stated, fails: a refused connection and a status 500 that carry
    the same message make [generateResponse] throw the same error, although
    the specification puts them in different classes; the thrown error
    keeps the message only. *)
Lemma generateResponse_does_not_classify :
  let refused := OpenAIService.mkClientError OpenAIService.ConnectionFailed
                   "Request failed" in
  let status500 := OpenAIService.mkClientError (OpenAIService.HttpStatus 500)
                     "Request failed" in
  OpenAIService.specifiedClass (OpenAIService.failure refused)
  = OpenAIService.UpstreamUnavailable
  /\ OpenAIService.specifiedClass (OpenAIService.failure status500)
     = OpenAIService.UpstreamError
  /\ snd (OpenAIService.generateResponse (fun _ => JS.Throw refused)
            "gpt-3.5-turbo" 500 "Hello" [])
     = snd (OpenAIService.generateResponse (fun _ => JS.Throw status500)
              "gpt-3.5-turbo" 500 "Hello" [])
  /\ snd (OpenAIService.generateResponse (fun _ => JS.Throw refused)
            "gpt-3.5-turbo" 500 "Hello" [])
     = JS.Throw (mkError "OpenAI API Error: Request failed").
Proof. cbv zeta. repeat split. Qed.

(** C4 (amended): whenever the request to the completion endpoint fails,
    for whatever reason, [generateResponse] logs the error and throws one
    generic error whose message is "OpenAI API Error: " followed by the
    message of the failure; the kind of failure is not part of what it
    throws. *)
Theorem generateResponse_wraps_every_failure :
  forall (create : OpenAIService.Request
                   -> JS.Completion OpenAIService.ClientError OpenAIService.ApiResponse)
         (configuredModel : string) (configuredMaxTokens : Z)
         (message : string) (history : list OpenAIService.Exchange)
         (error : OpenAIService.ClientError),
    create (OpenAIService.mkRequest configuredModel
              (OpenAIService.formatConversationHistory
                 OpenAIService.buildBankingSystemPrompt history message)
              configuredMaxTokens 0.7 0.1 0.1)
    = JS.Throw error ->
    OpenAIService.generateResponse create configuredModel configuredMaxTokens
      message history
    = ([OpenAIService.ErrorLogged (OpenAIService.reason error)],
       JS.Throw (mkError ("OpenAI API Error: " +:+ OpenAIService.reason error))).
Proof.
  intros create configuredModel configuredMaxTokens message history error Hfail.
  unfold OpenAIService.generateResponse. cbv zeta. now rewrite Hfail.
Qed.

Lemma generateResponse_wraps_every_failure_witness :
  OpenAIService.generateResponse
    (fun _ => JS.Throw (OpenAIService.mkClientError (OpenAIService.HttpStatus 401)
                          "Incorrect API key provided"))
    "gpt-3.5-turbo" 500 "What are the best savings account options?" []
  = ([OpenAIService.ErrorLogged "Incorrect API key provided"],
     JS.Throw (mkError "OpenAI API Error: Incorrect API key provided")).
Proof.
  apply (generateResponse_wraps_every_failure
           (fun _ => JS.Throw (OpenAIService.mkClientError
                                 (OpenAIService.HttpStatus 401)
                                 "Incorrect API key provided"))
           "gpt-3.5-turbo" 500 "What are the best savings account options?" []
           (OpenAIService.mkClientError (OpenAIService.HttpStatus 401)
              "Incorrect API key provided")).
  reflexivity.
Defined.

(** * Further properties *)

(** ** TokenOptimizer *)

Lemma length_append (a b : string) :
  String.length (a +:+ b) = (String.length a + String.length b)%nat.
Proof.
  induction a as [|c a IH]; [reflexivity|].
  rewrite append_cons. simpl. now rewrite IH.
Qed.

(** X1: the estimate is the number of characters divided by four and rounded
    up, so appending text never lowers it and never adds more than the
    estimate of what is appended. *)
Theorem estimateTokens_ceiling_and_append (a b : string) :
  4 * (TokenOptimizer.estimateTokens a - 1) < Z.of_nat (String.length a)
    <= 4 * TokenOptimizer.estimateTokens a
  /\ TokenOptimizer.estimateTokens a <= TokenOptimizer.estimateTokens (a +:+ b)
     <= TokenOptimizer.estimateTokens a + TokenOptimizer.estimateTokens b.
Proof.
  unfold TokenOptimizer.estimateTokens. rewrite length_append, Nat2Z.inj_add.
  generalize (Z.of_nat (String.length a)) (Z.of_nat (String.length b))
             (Nat2Z.is_nonneg (String.length a)) (Nat2Z.is_nonneg (String.length b)).
  intros n m Hn Hm.
  pose proof (Z.div_mod (n + 3) 4 ltac:(lia)).
  pose proof (Z.mod_pos_bound (n + 3) 4 ltac:(lia)).
  pose proof (Z.div_mod (m + 3) 4 ltac:(lia)).
  pose proof (Z.mod_pos_bound (m + 3) 4 ltac:(lia)).
  pose proof (Z.div_mod (n + m + 3) 4 ltac:(lia)).
  pose proof (Z.mod_pos_bound (n + m + 3) 4 ltac:(lia)).
  lia.
Qed.

(** X2: [summarizeHistory] returns at most three turns, as many as it was
    given when those are fewer, and the most recent turn is the most recent
    turn of what it returns. *)
Theorem summarizeHistory_length_and_last (history : list Turn) :
  length (TokenOptimizer.summarizeHistory history) = Nat.min (length history) 3
  /\ last (TokenOptimizer.summarizeHistory history) = last history.
Proof.
  destruct (Nat.le_gt_cases (length history) 2) as [Hshort|Hlong].
  - rewrite summarizeHistory_short by exact Hshort. split; [lia | reflexivity].
  - rewrite summarizeHistory_long by exact Hlong. split.
    + cbn [length]. rewrite length_drop. lia.
    + remember (drop (length history - 2) history) as recent eqn:Hrecent.
      assert (Hlen : length recent = 2%nat)
        by (subst recent; rewrite length_drop; lia).
      destruct (last recent) as [newest|] eqn:Hlast.
      * rewrite last_cons, Hlast.
        rewrite <- (take_drop (length history - 2) history), last_app.
        now rewrite <- Hrecent, Hlast.
      * apply last_None in Hlast. subst recent. rewrite Hlast in Hlen.
        discriminate.
Qed.

(** X3: the topics [extractTopics] returns are names of the keyword table,
    none twice, so there are at most five of them. *)
Theorem extractTopics_within_table (history : list Turn) :
  (forall topic, topic ∈ TokenOptimizer.extractTopics history ->
                 topic ∈ ["savings"; "credit"; "investment"; "budget"; "loans"])
  /\ NoDup (TokenOptimizer.extractTopics history)
  /\ (length (TokenOptimizer.extractTopics history) <= 5)%nat.
Proof.
  assert (Hin : forall topic, topic ∈ TokenOptimizer.extractTopics history ->
                  topic ∈ ["savings"; "credit"; "investment"; "budget"; "loans"]).
  { intros topic Htopic. apply extractTopics_spec in Htopic
      as (keywords & _ & _ & _ & _ & Hentry & _).
    change ["savings"; "credit"; "investment"; "budget"; "loans"]
      with (fst <$> TokenOptimizer.bankingKeywords).
    apply list_elem_of_fmap. now exists (topic, keywords). }
  split; [exact Hin|]. split; [apply extractTopics_NoDup|].
  change 5%nat with (length ["savings"; "credit"; "investment"; "budget"; "loans"]).
  apply submseteq_length, NoDup_submseteq; [apply extractTopics_NoDup | exact Hin].
Qed.

Section TopicOrder.

(** The topics a table pass proposes for one exchange, in table order. *)
Let proposed (exchange : Turn) : list string :=
  map fst (List.filter
             (fun entry => TokenOptimizer.mentions
                             (TokenOptimizer.exchangeText exchange) (snd entry))
             TokenOptimizer.bankingKeywords).

Let addAll (topics proposals : list string) : list string :=
  fold_left (fun acc topic => TokenOptimizer.setAdd topic acc) proposals topics.

Lemma setAdd_known (topic : string) (topics : list string) :
  topic ∈ topics -> TokenOptimizer.setAdd topic topics = topics.
Proof.
  intros Hin. unfold TokenOptimizer.setAdd.
  replace (existsb (String.eqb topic) topics) with true; [reflexivity|].
  symmetry. apply existsb_exists. exists topic.
  split; [now apply list_elem_of_In | apply String.eqb_refl].
Qed.

Lemma setAdd_new (topic : string) (topics : list string) :
  topic ∉ topics -> TokenOptimizer.setAdd topic topics = topics ++ [topic].
Proof.
  intros Hnew. unfold TokenOptimizer.setAdd.
  destruct (existsb (String.eqb topic) topics) eqn:E; [|reflexivity].
  apply existsb_exists in E as [known [Hin Heq]].
  apply String.eqb_eq in Heq as ->. now apply list_elem_of_In in Hin.
Qed.

(** Adding proposals to topics already found keeps those in place and
    appends the new ones, in the order they would be found on their own. *)
Lemma addAll_from (proposals topics : list string) :
  addAll topics proposals
  = topics ++ filter (fun topic => topic ∉ topics) (addAll [] proposals).
Proof.
  revert topics. induction proposals as [|topic proposals IH]; intros topics.
  - cbn. now rewrite app_nil_r.
  - unfold addAll in *. cbn [fold_left].
    rewrite (IH (TokenOptimizer.setAdd topic topics)).
    rewrite (IH (TokenOptimizer.setAdd topic [])).
    rewrite (setAdd_new topic []) by apply not_elem_of_nil.
    change ([] ++ [topic]) with [topic].
    rewrite filter_app, list_filter_filter.
    destruct (decide (topic ∈ topics)) as [Hin|Hnew].
    + rewrite (setAdd_known topic topics Hin).
      rewrite filter_cons_False, filter_nil by (intros H; now apply H). cbn [app].
      f_equal. apply list_filter_iff. intros x. split; [|tauto].
      intros Hx. split; [exact Hx|].
      intros ->%list_elem_of_singleton. now apply Hx.
    + rewrite (setAdd_new topic topics Hnew).
      rewrite filter_cons_True, filter_nil by exact Hnew.
      rewrite <- !app_assoc. cbn [app]. do 2 f_equal.
      apply list_filter_iff. intros x.
      rewrite elem_of_app, !list_elem_of_singleton. tauto.
Qed.

Lemma addTopicsOf_addAll (exchange : Turn) (topics : list string) :
  TokenOptimizer.addTopicsOf topics exchange = addAll topics (proposed exchange).
Proof.
  unfold TokenOptimizer.addTopicsOf, proposed, addAll.
  generalize TokenOptimizer.bankingKeywords as table. intros table. revert topics.
  induction table as [|entry table IH]; intros topics; [reflexivity|].
  cbn [fold_left List.filter].
  destruct (TokenOptimizer.mentions _ (snd entry)); cbn [map fold_left]; apply IH.
Qed.

Lemma fold_addTopicsOf_addAll (history : list Turn) (topics : list string) :
  fold_left TokenOptimizer.addTopicsOf history topics
  = addAll topics (flat_map proposed history).
Proof.
  revert topics. induction history as [|exchange history IH]; intros topics;
    [reflexivity|].
  cbn [fold_left flat_map]. rewrite IH, addTopicsOf_addAll.
  unfold addAll. now rewrite fold_left_app.
Qed.

Lemma fold_addTopicsOf_from (history : list Turn) (topics : list string) :
  fold_left TokenOptimizer.addTopicsOf history topics
  = topics ++ filter (fun topic => topic ∉ topics)
                     (TokenOptimizer.extractTopics history).
Proof.
  unfold TokenOptimizer.extractTopics. rewrite !fold_addTopicsOf_addAll.
  apply addAll_from.
Qed.

End TopicOrder.

(** X4: the topics of a conversation that goes on are the topics of the
    conversation so far, in their places, followed by the topics of the
    later turns that are new, in the order [extractTopics] gives them for
    the later turns alone. *)
Theorem extractTopics_extends (earlier later : list Turn) :
  TokenOptimizer.extractTopics (earlier ++ later)
  = TokenOptimizer.extractTopics earlier
    ++ filter (fun topic => topic ∉ TokenOptimizer.extractTopics earlier)
              (TokenOptimizer.extractTopics later).
Proof.
  unfold TokenOptimizer.extractTopics at 1. rewrite fold_left_app.
  apply fold_addTopicsOf_from.
Qed.

(** X6: when the system prompt and the user message alone are estimated
    above the budget of 3500 tokens, [optimizePrompt] returns no history at
    all, whatever [formatHistory] is. *)
Theorem optimizePrompt_over_budget_drops_all
    (formatHistory : list Turn -> string) (systemPrompt userMessage : string)
    (history : list Turn) :
  TokenOptimizer.estimateTokens systemPrompt
  + TokenOptimizer.estimateTokens userMessage > TokenOptimizer.maxTokens ->
  TokenOptimizer.optimizePrompt formatHistory systemPrompt history userMessage = [].
Proof.
  intros Hover. unfold TokenOptimizer.optimizePrompt, TokenOptimizer.optimizePromptWithin.
  cbv zeta.
  set (fixedTokens := TokenOptimizer.estimateTokens systemPrompt
                      + TokenOptimizer.estimateTokens userMessage) in *.
  assert (Hlt : TokenOptimizer.maxTokens < fixedTokens) by lia.
  pose proof (truncateLoop_over formatHistory TokenOptimizer.maxTokens fixedTokens
                fixedTokens history Hlt Hlt
                (fun h => estimateTokens_nonneg (formatHistory h))) as Hnil.
  destruct (TokenOptimizer.truncateLoop _ _ _ _ history) as [cur remaining].
  simpl in Hnil. subst remaining. now destruct (cur >? TokenOptimizer.maxTokens).
Qed.

Lemma optimizePrompt_over_budget_drops_all_witness :
  TokenOptimizer.optimizePrompt (fun _ => "")
    (JS.repeatString (JS.repeatString "s" 200) 71) [mkTurn user (Some "Hello")] "Hi"
  = [].
Proof.
  apply (optimizePrompt_over_budget_drops_all (fun _ => "")
           (JS.repeatString (JS.repeatString "s" 200) 71) "Hi" [mkTurn user (Some "Hello")]).
  vm_compute. reflexivity.
Defined.

(** ** ModelSelector *)

Lemma selectModel_two_models (message : string) (conversationLength : Z) :
  ModelSelector.selectModel message conversationLength = "gpt-4"
  \/ ModelSelector.selectModel message conversationLength = "gpt-3.5-turbo".
Proof.
  unfold ModelSelector.selectModel. cbv zeta.
  destruct (existsb _ ModelSelector.simpleKeywords || (conversationLength <? 3));
    [now right|].
  destruct (existsb _ ModelSelector.complexKeywords); [now left | now right].
Qed.

(** X7: [selectModel] answers "gpt-4" exactly when the conversation has at
    least three turns, the lower-cased message contains none of the simple
    keywords and it contains one of the complex ones; every other answer is
    "gpt-3.5-turbo". *)
Theorem selectModel_gpt4_iff (message : string) (conversationLength : Z) :
  (ModelSelector.selectModel message conversationLength = "gpt-4"
   <-> 3 <= conversationLength
       /\ (forall keyword pre post,
             keyword ∈ ModelSelector.simpleKeywords ->
             JS.toLowerCase message <> pre +:+ keyword +:+ post)
       /\ exists keyword pre post,
            keyword ∈ ModelSelector.complexKeywords
            /\ JS.toLowerCase message = pre +:+ keyword +:+ post)
  /\ (ModelSelector.selectModel message conversationLength = "gpt-4"
      \/ ModelSelector.selectModel message conversationLength = "gpt-3.5-turbo").
Proof.
  unfold ModelSelector.selectModel. cbv zeta.
  change (existsb (fun keyword => JS.includes (JS.toLowerCase message) keyword)
                  ModelSelector.simpleKeywords)
    with (TokenOptimizer.mentions (JS.toLowerCase message) ModelSelector.simpleKeywords).
  change (existsb (fun keyword => JS.includes (JS.toLowerCase message) keyword)
                  ModelSelector.complexKeywords)
    with (TokenOptimizer.mentions (JS.toLowerCase message) ModelSelector.complexKeywords).
  destruct (TokenOptimizer.mentions _ ModelSelector.simpleKeywords) eqn:Hsimple;
    cbn [orb].
  - split; [|now right]. split; [discriminate|].
    intros (_ & Hnone & _). apply mentions_spec in Hsimple
      as (keyword & pre & post & Hin & Htext). now destruct (Hnone keyword pre post).
  - assert (Hnone : forall keyword pre post,
               keyword ∈ ModelSelector.simpleKeywords ->
               JS.toLowerCase message <> pre +:+ keyword +:+ post).
    { intros keyword pre post Hin Htext.
      assert (TokenOptimizer.mentions (JS.toLowerCase message)
                ModelSelector.simpleKeywords = true); [|congruence].
      apply mentions_spec. now exists keyword, pre, post. }
    destruct (conversationLength <? 3) eqn:Hlen.
    + apply Z.ltb_lt in Hlen. split; [|now right].
      split; [discriminate | intros (H3 & _); lia].
    + apply Z.ltb_ge in Hlen.
      destruct (TokenOptimizer.mentions _ ModelSelector.complexKeywords) eqn:Hcomplex.
      * split; [|now left]. split; [|reflexivity]. intros _.
        split; [exact Hlen|]. split; [exact Hnone|].
        apply mentions_spec in Hcomplex as (keyword & pre & post & Hin & Htext).
        now exists keyword, pre, post.
      * split; [|now right]. split; [discriminate|].
        intros (_ & _ & keyword & pre & post & Hin & Htext).
        assert (TokenOptimizer.mentions (JS.toLowerCase message)
                  ModelSelector.complexKeywords = true); [|congruence].
        apply mentions_spec. now exists keyword, pre, post.
Qed.

(** X8: the model [selectModel] picks is always an entry of the pricing
    table, so the cost of a call with it is computed at that entry's
    rates. *)
Theorem selectModel_is_priced (message : string) (conversationLength : Z)
    (usage : CostTracker.Usage) :
  exists rates : CostTracker.Rates,
    CostTracker.pricing !! ModelSelector.selectModel message conversationLength
    = Some rates
    /\ CostTracker.calculateCost usage
         (ModelSelector.selectModel message conversationLength)
       = (CostTracker.number (CostTracker.prompt_tokens usage)
            * CostTracker.input rates / 1000
          + CostTracker.number (CostTracker.completion_tokens usage)
            * CostTracker.output rates / 1000)%float.
Proof.
  destruct (selectModel_two_models message conversationLength) as [-> | ->];
    eexists; split; reflexivity.
Qed.

(** ** CostTracker *)

Lemma calculateCost_defaults_witness :
  CostTracker.calculateCost (CostTracker.mkUsage 1200 300 1500) "gpt-4o-mini"
  = CostTracker.calculateCost (CostTracker.mkUsage 1200 300 1500) "gpt-3.5-turbo".
Proof.
  apply (calculateCost_defaults (CostTracker.mkUsage 1200 300 1500) "gpt-4o-mini").
  - discriminate.
  - vm_compute. intuition discriminate.
Defined.

Lemma calculateCost_agree (usage : CostTracker.Usage) :
  OpenAIService.calculateCost usage
  = CostTracker.calculateCost usage "gpt-3.5-turbo".
Proof. reflexivity. Qed.

(** X10: whatever model the gateway is configured with, the cost it tracks
    for an answered request is the cost at the rates of gpt-3.5-turbo. *)
Theorem generateResponse_tracks_default_rates
    (create : OpenAIService.Request
              -> JS.Completion OpenAIService.ClientError OpenAIService.ApiResponse)
    (configuredModel : string) (configuredMaxTokens : Z)
    (message : string) (history : list OpenAIService.Exchange)
    (response : OpenAIService.ApiResponse) :
  create (OpenAIService.mkRequest configuredModel
            (OpenAIService.formatConversationHistory
               OpenAIService.buildBankingSystemPrompt history message)
            configuredMaxTokens 0.7 0.1 0.1)
  = JS.Return response ->
  fst (OpenAIService.generateResponse create configuredModel configuredMaxTokens
         message history)
  = [OpenAIService.UsageTracked (OpenAIService.usage response)
       (CostTracker.calculateCost (OpenAIService.usage response) "gpt-3.5-turbo")].
Proof.
  intros Hok. rewrite (generateResponse_success _ _ _ _ _ _ Hok).
  cbn [fst]. now rewrite calculateCost_agree.
Qed.

Lemma generateResponse_tracks_default_rates_witness :
  let response := OpenAIService.mkApiResponse "Consider a high-yield account."
                    (CostTracker.mkUsage 1000 1000 2000) in
  fst (OpenAIService.generateResponse (fun _ => JS.Return response)
         "gpt-4" 500 "Where should I keep my savings?" [])
  = [OpenAIService.UsageTracked (CostTracker.mkUsage 1000 1000 2000) 0.002%float].
Proof.
  cbv zeta.
  apply (generateResponse_tracks_default_rates
           (fun _ => JS.Return (OpenAIService.mkApiResponse
                                  "Consider a high-yield account."
                                  (CostTracker.mkUsage 1000 1000 2000)))
           "gpt-4" 500 "Where should I keep my savings?" []
           (OpenAIService.mkApiResponse "Consider a high-yield account."
              (CostTracker.mkUsage 1000 1000 2000))).
  reflexivity.
Defined.

Section NaNFacts.

Local Open Scope float_scope.

Lemma nan_plus (x : float) : nan + x = nan.
Proof.
  apply Prim2SF_inj. rewrite FloatAxioms.add_spec.
  change (Prim2SF nan) with S754_nan. reflexivity.
Qed.

Lemma nan_percentage (limit : float) : nan / limit * 100 = nan.
Proof.
  apply Prim2SF_inj. rewrite FloatAxioms.mul_spec, FloatAxioms.div_spec.
  change (Prim2SF nan) with S754_nan. reflexivity.
Qed.

Lemma geb_nan (threshold : float) : CostTracker.geb nan threshold = false.
Proof.
  unfold CostTracker.geb. rewrite FloatAxioms.leb_spec.
  change (Prim2SF nan) with S754_nan.
  unfold SFleb, SFcompare. now destruct (Prim2SF threshold).
Qed.

Lemma checkBudgetAlerts_nan (t : CostTracker.Tracker) :
  CostTracker.totalCost (CostTracker.dailyUsage t) = nan ->
  CostTracker.checkBudgetAlerts t = [].
Proof.
  intros Hnan. unfold CostTracker.checkBudgetAlerts, CostTracker.dailyPercentage.
  cbv zeta. now rewrite Hnan, nan_percentage, !geb_nan.
Qed.

End NaNFacts.

(** X11: once the running daily total is NaN it stays NaN, and no later
    call emits any alert. *)
Theorem nan_total_silences_alerts (t : CostTracker.Tracker)
    (calls : list (CostTracker.Usage * string)) (level : CostTracker.Level) :
  CostTracker.totalCost (CostTracker.dailyUsage t) = nan ->
  CostTracker.totalCost (CostTracker.dailyUsage (fst (CostTracker.trackAll t calls)))
  = nan
  /\ CostTracker.alertCount level (snd (CostTracker.trackAll t calls)) = 0%nat.
Proof.
  revert t. induction calls as [|[usage model] rest IH]; intros t Hnan.
  - split; [exact Hnan | reflexivity].
  - cbn [CostTracker.trackAll].
    pose proof (trackUsage_events t usage model) as Hevents.
    assert (Hnext : CostTracker.totalCost
                      (CostTracker.dailyUsage
                         (fst (fst (CostTracker.trackUsage t usage model)))) = nan)
      by (cbn [CostTracker.trackUsage fst CostTracker.dailyUsage CostTracker.totalCost];
          now rewrite Hnan, nan_plus).
    destruct (CostTracker.trackUsage t usage model) as [[t' events] cost].
    cbn [fst snd] in *. destruct (IH t' Hnext) as [Htotal Hnone].
    destruct (CostTracker.trackAll t' rest) as [t'' later]. cbn [fst snd] in *.
    split; [exact Htotal|].
    rewrite alertCount_app, Hnone, Hevents, !alertCount_app.
    rewrite (checkBudgetAlerts_nan t' Hnext).
    rewrite !alertCount_other by discriminate. reflexivity.
Qed.

Lemma nan_total_silences_alerts_witness :
  let usage := CostTracker.mkUsage 4000000 0 4000000 in
  let poisoned :=
    fst (fst (CostTracker.trackUsage
                (CostTracker.constructor "Mon Nov 02 2026" nan nan)
                usage "toString")) in
  CostTracker.alertCount CostTracker.CRITICAL
    (snd (CostTracker.trackAll poisoned [(usage, "gpt-4"); (usage, "gpt-4")]))
  = 0%nat.
Proof.
  cbv zeta.
  apply (nan_total_silences_alerts
           (fst (fst (CostTracker.trackUsage
                        (CostTracker.constructor "Mon Nov 02 2026" nan nan)
                        (CostTracker.mkUsage 4000000 0 4000000) "toString")))
           [(CostTracker.mkUsage 4000000 0 4000000, "gpt-4");
            (CostTracker.mkUsage 4000000 0 4000000, "gpt-4")]
           CostTracker.CRITICAL).
  vm_compute. reflexivity.
Defined.

(** X12: over any series of calls the tracker counts every call and every
    token, and it never changes its date or its budget limits: the daily
    total is never reset. *)
Theorem trackAll_counts_and_never_resets (t : CostTracker.Tracker)
    (calls : list (CostTracker.Usage * string)) :
  let after := fst (CostTracker.trackAll t calls) in
  CostTracker.requestCount (CostTracker.dailyUsage after)
  = (CostTracker.requestCount (CostTracker.dailyUsage t) + N.of_nat (length calls))%N
  /\ CostTracker.totalTokens (CostTracker.dailyUsage after)
     = fold_left (fun total call => (total + CostTracker.total_tokens (fst call))%N)
                 calls (CostTracker.totalTokens (CostTracker.dailyUsage t))
  /\ CostTracker.date (CostTracker.dailyUsage after)
     = CostTracker.date (CostTracker.dailyUsage t)
  /\ CostTracker.budgetLimits after = CostTracker.budgetLimits t.
Proof.
  cbv zeta. revert t.
  induction calls as [|[usage model] rest IH]; intros t.
  - cbn. repeat split. lia.
  - cbn [CostTracker.trackAll fold_left length].
    specialize (IH (fst (fst (CostTracker.trackUsage t usage model)))).
    destruct (CostTracker.trackUsage t usage model) as [[t' events] cost] eqn:E.
    assert (Ht' : t' = fst (fst (CostTracker.trackUsage t usage model)))
      by now rewrite E.
    cbn [fst snd] in IH.
    destruct (CostTracker.trackAll t' rest) as [t'' later]. cbn [fst snd] in *.
    destruct IH as (Hcount & Htokens & Hdate & Hlimits).
    rewrite Hcount, Htokens, Hdate, Hlimits, Ht'.
    cbn [CostTracker.trackUsage fst snd CostTracker.dailyUsage
         CostTracker.requestCount CostTracker.totalTokens CostTracker.date
         CostTracker.budgetLimits].
    repeat split. lia.
Qed.

(** ** Cache keys, continued *)

Section NormalizeFacts.

Lemma every_mapString_fixed (f : ascii -> ascii) (s : string) :
  every (fun c => Ascii.eqb (f c) c) s = true -> JS.mapString f s = s.
Proof.
  induction s as [|c r IH]; [reflexivity|]. cbn [every JS.mapString].
  intros [Hc Hr]%andb_true_iff. apply Ascii.eqb_eq in Hc. now rewrite Hc, IH.
Qed.

Lemma every_filterString_fixed (p : ascii -> bool) (s : string) :
  every p s = true -> JS.filterString p s = s.
Proof.
  induction s as [|c r IH]; [reflexivity|]. cbn [every JS.filterString].
  intros [Hc Hr]%andb_true_iff. now rewrite Hc, IH.
Qed.

Lemma every_weaken (p q : ascii -> bool) (s : string) :
  (forall c, p c = true -> q c = true) -> every p s = true -> every q s = true.
Proof.
  intros Hpq. induction s as [|c r IH]; [reflexivity|]. cbn [every].
  intros [Hc Hr]%andb_true_iff. now rewrite (Hpq c Hc), IH.
Qed.

(** What is left of a lower-cased message after stripping is made of
    lower-case word characters and white space. *)
Lemma every_strip_lower (s : string) :
  every (fun c => isKeyChar c || JS.isSpaceChar c)
        (JS.stripNonWordNonSpace (JS.toLowerCase s)) = true.
Proof.
  induction s as [|c r IH]; [reflexivity|]. rewrite strip_lower_cons.
  destruct (JS.isWordChar c || JS.isSpaceChar c) eqn:E; [|exact IH].
  cbn [every]. rewrite IH, andb_true_r. revert E.
  destruct c as [[] [] [] [] [] [] [] []]; vm_compute; congruence.
Qed.

Lemma every_collapseFrom (inRun : bool) (s : string) :
  every (fun c => isKeyChar c || JS.isSpaceChar c) s = true ->
  every isKeyChar (JS.collapseFrom inRun s) = true.
Proof.
  revert inRun. induction s as [|c r IH]; intros inRun; [reflexivity|].
  cbn [every JS.collapseFrom]. intros [Hc Hr]%andb_true_iff.
  destruct (JS.isSpaceChar c) eqn:Hspace.
  - destruct inRun; [now apply IH|]. cbn [every]. now rewrite IH.
  - cbn [every]. rewrite orb_false_r in Hc. now rewrite Hc, IH.
Qed.

Lemma every_trimStart (p : ascii -> bool) (s : string) :
  every p s = true -> every p (JS.trimStart s) = true.
Proof.
  induction s as [|c r IH]; [reflexivity|]. cbn [JS.trimStart].
  destruct (JS.isSpaceChar c); [|auto]. cbn [every].
  intros [_ Hr]%andb_true_iff. now apply IH.
Qed.

Lemma every_trimEnd (p : ascii -> bool) (s : string) :
  every p s = true -> every p (JS.trimEnd s) = true.
Proof.
  induction s as [|c r IH]; [reflexivity|]. cbn [JS.trimEnd every].
  intros [Hc Hr]%andb_true_iff. specialize (IH Hr).
  destruct (JS.trimEnd r) as [|d r'].
  - destruct (JS.isSpaceChar c); [reflexivity|]. cbn [every]. now rewrite Hc.
  - cbn [every] in *. now rewrite Hc, IH.
Qed.

Lemma singleSpaced_collapseFrom (inRun : bool) (s : string) :
  singleSpaced inRun (JS.collapseFrom inRun s) = true.
Proof.
  revert inRun. induction s as [|c r IH]; intros inRun; [reflexivity|].
  cbn [JS.collapseFrom]. destruct (JS.isSpaceChar c) eqn:Hspace.
  - destruct inRun; [apply IH|]. cbn [singleSpaced].
    change (JS.isSpaceChar " ") with true. cbv iota. now rewrite IH.
  - cbn [singleSpaced]. rewrite Hspace. apply IH.
Qed.

Lemma singleSpaced_fixed (inRun : bool) (s : string) :
  singleSpaced inRun s = true -> JS.collapseFrom inRun s = s.
Proof.
  revert inRun. induction s as [|c r IH]; intros inRun; [reflexivity|].
  cbn [singleSpaced JS.collapseFrom]. destruct (JS.isSpaceChar c).
  - intros [[Hrun Hc]%andb_true_iff Hr]%andb_true_iff.
    destruct inRun; [discriminate|]. apply Ascii.eqb_eq in Hc. subst c.
    now rewrite IH.
  - intros Hr. now rewrite IH.
Qed.

Lemma singleSpaced_weaken (s : string) :
  singleSpaced true s = true -> singleSpaced false s = true.
Proof.
  destruct s as [|c r]; [reflexivity|]. cbn [singleSpaced].
  destruct (JS.isSpaceChar c); [discriminate | auto].
Qed.

Lemma singleSpaced_trimStart (afterSpace : bool) (s : string) :
  singleSpaced afterSpace s = true -> singleSpaced false (JS.trimStart s) = true.
Proof.
  revert afterSpace. induction s as [|c r IH]; intros afterSpace; [reflexivity|].
  cbn [singleSpaced JS.trimStart]. destruct (JS.isSpaceChar c) eqn:Hspace.
  - intros [_ Hr]%andb_true_iff. now apply (IH true).
  - intros Hr. cbn [singleSpaced]. now rewrite Hspace.
Qed.

Lemma singleSpaced_trimEnd (afterSpace : bool) (s : string) :
  singleSpaced afterSpace s = true -> singleSpaced afterSpace (JS.trimEnd s) = true.
Proof.
  revert afterSpace. induction s as [|c r IH]; intros afterSpace; [reflexivity|].
  cbn [singleSpaced JS.trimEnd]. destruct (JS.isSpaceChar c) eqn:Hspace.
  - intros [Hc Hr]%andb_true_iff. specialize (IH true Hr).
    destruct (JS.trimEnd r) as [|d r']; [reflexivity|].
    cbn [singleSpaced] in *. now rewrite Hspace, Hc, IH.
  - intros Hr. specialize (IH false Hr).
    destruct (JS.trimEnd r) as [|d r'];
      cbn [singleSpaced] in *; now rewrite Hspace.
Qed.

Lemma startsClean_trimStart (s : string) : startsClean (JS.trimStart s) = true.
Proof.
  induction s as [|c r IH]; [reflexivity|]. cbn [JS.trimStart].
  destruct (JS.isSpaceChar c) eqn:Hspace; [exact IH|].
  cbn [startsClean]. now rewrite Hspace.
Qed.

Lemma startsClean_fixed (s : string) : startsClean s = true -> JS.trimStart s = s.
Proof.
  destruct s as [|c r]; [reflexivity|]. cbn [startsClean JS.trimStart].
  now destruct (JS.isSpaceChar c).
Qed.

Lemma startsClean_trimEnd (s : string) :
  startsClean s = true -> startsClean (JS.trimEnd s) = true.
Proof.
  destruct s as [|c r]; [reflexivity|]. cbn [startsClean JS.trimEnd].
  intros Hc. apply negb_true_iff in Hc.
  destruct (JS.trimEnd r); [rewrite Hc|]; cbn [startsClean]; now rewrite Hc.
Qed.

Lemma trimEnd_idempotent (s : string) : JS.trimEnd (JS.trimEnd s) = JS.trimEnd s.
Proof.
  induction s as [|c r IH]; [reflexivity|]. cbn [JS.trimEnd].
  destruct (JS.trimEnd r) as [|d r'] eqn:E.
  - destruct (JS.isSpaceChar c) eqn:Hspace; [reflexivity|].
    cbn [JS.trimEnd]. now rewrite Hspace.
  - cbn [JS.trimEnd]. cbn [JS.trimEnd] in IH. rewrite IH. reflexivity.
Qed.

Lemma trim_idempotent (s : string) : JS.trim (JS.trim s) = JS.trim s.
Proof.
  unfold JS.trim.
  rewrite (startsClean_fixed (JS.trimEnd (JS.trimStart s)))
    by apply startsClean_trimEnd, startsClean_trimStart.
  apply trimEnd_idempotent.
Qed.

Lemma every_list (p : ascii -> bool) (s : string) (c : ascii) :
  every p s = true -> In c (list_ascii_of_string s) -> p c = true.
Proof.
  induction s as [|d r IH]; [intros _ []|]. cbn [every list_ascii_of_string].
  intros [Hd Hr]%andb_true_iff [<- | Hin]; auto.
Qed.

End NormalizeFacts.

(** X13: a normalized message is made of the characters a-z, 0-9,
    underscore and SPACE only, whatever the message was. *)
Theorem normalizeMessage_alphabet (message : string) (c : ascii) :
  In c (list_ascii_of_string (CacheStrategy.normalizeMessage message)) ->
  97 <= JS.code c <= 122 \/ 48 <= JS.code c <= 57 \/ JS.code c = 95
  \/ JS.code c = 32.
Proof.
  intros Hin.
  assert (Hkey : isKeyChar c = true).
  { apply (every_list _ _ _ (every_trimEnd _ _ (every_trimStart _ _
             (every_collapseFrom false _ (every_strip_lower message)))) Hin). }
  unfold isKeyChar in Hkey. cbv zeta in Hkey.
  repeat (apply orb_true_iff in Hkey as [Hkey | Hkey]);
    try (apply andb_true_iff in Hkey as [?%Z.leb_le ?%Z.leb_le]);
    try apply Z.eqb_eq in Hkey; auto.
Qed.

Lemma normalizeMessage_alphabet_witness :
  97 <= JS.code "w" <= 122 \/ 48 <= JS.code "w" <= 57 \/ JS.code "w" = 95
  \/ JS.code "w" = 32.
Proof.
  apply (normalizeMessage_alphabet "What's my Savings rate?" "w").
  vm_compute. auto.
Defined.

(** X14: normalizing is idempotent: a normalized message is its own
    normalization, so a key can be normalized again without changing. *)
Theorem normalizeMessage_idempotent (message : string) :
  CacheStrategy.normalizeMessage (CacheStrategy.normalizeMessage message)
  = CacheStrategy.normalizeMessage message.
Proof.
  set (normalized := CacheStrategy.normalizeMessage message).
  assert (Hkey : every isKeyChar normalized = true).
  { apply every_trimEnd, every_trimStart, every_collapseFrom, every_strip_lower. }
  assert (Hspaced : singleSpaced false normalized = true).
  { apply singleSpaced_trimEnd, (singleSpaced_trimStart false),
      singleSpaced_collapseFrom. }
  unfold CacheStrategy.normalizeMessage at 1.
  unfold JS.toLowerCase, JS.stripNonWordNonSpace, JS.collapseWhitespace.
  rewrite every_mapString_fixed, every_filterString_fixed, singleSpaced_fixed.
  - apply trim_idempotent.
  - exact Hspaced.
  - apply (every_weaken isKeyChar); [|exact Hkey].
    intros [[] [] [] [] [] [] [] []]; vm_compute; congruence.
  - apply (every_weaken isKeyChar); [|exact Hkey].
    intros [[] [] [] [] [] [] [] []]; vm_compute; congruence.
Qed.

(** ** CacheService and CacheStrategy: writes *)

(** X15: on a store that can be reached, what [setCachedResponse] stores
    under a message is what [getCachedResponse] finds under that message:
    when the response is an object it is returned marked as coming from the
    cache; when it is a primitive or [null], marking it throws inside the
    [try] and the lookup answers "absent". *)
Theorem CacheService_set_then_get
    (Response : Type) (JSON : Json Response) (redis : Redis.Client)
    (userMessage : string) (response : Response) (ttl : Z) :
  Redis.reachable redis = true ->
  stringify JSON response <> "" ->
  parse JSON (stringify JSON response) = JS.Return response ->
  exists stored : Redis.Client,
    CacheService.setCachedResponse JSON redis userMessage response ttl
    = JS.Return stored
    /\ CacheService.getCachedResponse JSON stored userMessage
       = JS.Return (if isObject JSON response
                    then Some (CacheService.mkCached response true)
                    else None).
Proof.
  intros Hup Htext Hround.
  unfold CacheService.setCachedResponse, CacheService.getCachedResponse,
    Redis.setex, Redis.get. cbv zeta. rewrite Hup. cbn [JS.try_catch].
  eexists. split; [reflexivity|]. cbn [Redis.reachable Redis.entries].
  rewrite lookup_insert_eq. cbn [fmap option_fmap option_map snd JS.bind].
  destruct (stringify JSON response) eqn:E; [congruence|].
  cbn [Redis.truthy]. rewrite Hround. cbn [JS.bind].
  now destruct (isObject JSON response).
Qed.

Lemma CacheService_set_then_get_witness :
  exists stored : Redis.Client,
    CacheService.setCachedResponse (jsonOfReplies ["Rates are about 4%."])
      (Redis.mkClient ∅ true) "What's my Savings rate?" "Rates are about 4%." 3600
    = JS.Return stored
    /\ CacheService.getCachedResponse (jsonOfReplies ["Rates are about 4%."])
         stored "What's my Savings rate?"
       = JS.Return (Some (CacheService.mkCached "Rates are about 4%." true)).
Proof.
  apply (CacheService_set_then_get string (jsonOfReplies ["Rates are about 4%."])
           (Redis.mkClient ∅ true) "What's my Savings rate?"
           "Rates are about 4%." 3600).
  - reflexivity.
  - discriminate.
  - reflexivity.
Defined.

(** The response [true], a primitive, is stored and not served. *)
Lemma CacheService_primitive_is_absent :
  exists stored : Redis.Client,
    CacheService.setCachedResponse jsonOfBool (Redis.mkClient ∅ true)
      "What's my Savings rate?" true 3600 = JS.Return stored
    /\ Redis.entries stored !! CacheService.createCacheKey "What's my Savings rate?"
       = Some (3600, "true")
    /\ CacheService.getCachedResponse jsonOfBool stored "What's my Savings rate?"
       = JS.Return None.
Proof. eexists. split; [reflexivity|]. split; reflexivity. Qed.

(** X16: [setCachedResponse] never throws; when the store cannot be reached
    it leaves the client as it was, and a lookup then answers "absent". *)
Theorem CacheService_write_never_throws
    (Response : Type) (JSON : Json Response) (redis : Redis.Client)
    (userMessage : string) (response : Response) (ttl : Z) :
  exists stored : Redis.Client,
    CacheService.setCachedResponse JSON redis userMessage response ttl
    = JS.Return stored
    /\ (Redis.reachable redis = false ->
        stored = redis
        /\ CacheService.getCachedResponse JSON stored userMessage = JS.Return None).
Proof.
  unfold CacheService.setCachedResponse, Redis.setex. cbv zeta.
  destruct (Redis.reachable redis) eqn:Hup; cbn [JS.try_catch]; eexists;
    (split; [reflexivity|]); [discriminate|].
  intros _. split; [reflexivity|].
  now apply CacheService_lookup_never_throws.
Qed.

(** X17: storing a response under one key leaves the answer of a lookup
    under any other key as it was. *)
Theorem CacheService_other_key_untouched
    (Response : Type) (JSON : Json Response) (redis stored : Redis.Client)
    (written asked : string) (response : Response) (ttl : Z) :
  CacheService.createCacheKey written <> CacheService.createCacheKey asked ->
  CacheService.setCachedResponse JSON redis written response ttl = JS.Return stored ->
  CacheService.getCachedResponse JSON stored asked
  = CacheService.getCachedResponse JSON redis asked.
Proof.
  intros Hkeys. unfold CacheService.setCachedResponse, Redis.setex. cbv zeta.
  destruct (Redis.reachable redis) eqn:Hup; cbn [JS.try_catch];
    intros [= <-]; [|reflexivity].
  unfold CacheService.getCachedResponse, Redis.get. cbv zeta.
  cbn [Redis.reachable Redis.entries]. rewrite Hup.
  now rewrite lookup_insert_ne by exact Hkeys.
Qed.

Lemma CacheService_other_key_untouched_witness :
  let redis := Redis.mkClient
                 (<[CacheService.createCacheKey "opening hours" := (3600, "false")]> ∅)
                 true in
  CacheService.getCachedResponse jsonOfBool
    (Redis.mkClient
       (<[CacheService.createCacheKey "savings rate" := (3600, "true")]>
          (Redis.entries redis)) true)
    "opening hours"
  = CacheService.getCachedResponse jsonOfBool redis "opening hours".
Proof.
  cbv zeta.
  apply (CacheService_other_key_untouched bool jsonOfBool
           (Redis.mkClient
              (<[CacheService.createCacheKey "opening hours" := (3600, "false")]> ∅)
              true)
           _ "savings rate" "opening hours" true 3600).
  - vm_compute. discriminate.
  - reflexivity.
Defined.

Section PopularFacts.

Context {Response : Type} (JSON : Json Response).

(** One more caching of a message that was cached [count] times. *)
Lemma cacheResponse_counts (this : CacheStrategy.State) (message : string)
    (response : Response) (ttl count : Z) :
  Redis.reachable (CacheStrategy.redis this) = true ->
  default 0 (CacheStrategy.commonQuestions this
               !! CacheStrategy.normalizeMessage message) = count ->
  exists after : CacheStrategy.State,
    CacheStrategy.cacheResponse JSON this message response ttl = JS.Return after
    /\ Redis.reachable (CacheStrategy.redis after) = true
    /\ CacheStrategy.commonQuestions after !! CacheStrategy.normalizeMessage message
       = Some (count + 1)
    /\ Redis.entries (CacheStrategy.redis after)
         !! ("exact:" +:+ CacheStrategy.normalizeMessage message)
       = Some (if count >? 10 then 604800 else ttl, stringify JSON response).
Proof.
  intros Hup Hcount.
  unfold CacheStrategy.cacheResponse, Redis.setex. cbv zeta. rewrite Hup.
  cbn [JS.bind]. eexists. split; [reflexivity|].
  unfold CacheStrategy.trackCommonQuestion. cbv zeta.
  cbn [CacheStrategy.commonQuestions CacheStrategy.redis]. rewrite Hcount.
  destruct (count >? 10);
    cbn [CacheStrategy.commonQuestions CacheStrategy.redis];
    unfold Redis.expire; cbn [Redis.reachable Redis.entries];
    rewrite lookup_insert_eq; repeat split.
  - now rewrite lookup_alter_eq, lookup_insert_eq.
  - now rewrite lookup_insert_eq.
Qed.

End PopularFacts.

(** X18: a question's count goes up by one with each caching, and from the
    twelfth caching on (the count before it is above 10) the entry is kept
    for 7 days, 604800 seconds, instead of the time to live asked for. *)
Theorem cacheRepeatedly_extends_popular
    (Response : Type) (JSON : Json Response) (this : CacheStrategy.State)
    (message : string) (response : Response) (ttl : Z) (n : nat) :
  Redis.reachable (CacheStrategy.redis this) = true ->
  CacheStrategy.commonQuestions this !! CacheStrategy.normalizeMessage message = None ->
  (1 <= n)%nat ->
  exists after : CacheStrategy.State,
    cacheRepeatedly JSON this message response ttl n = JS.Return after
    /\ Redis.reachable (CacheStrategy.redis after) = true
    /\ CacheStrategy.commonQuestions after !! CacheStrategy.normalizeMessage message
       = Some (Z.of_nat n)
    /\ Redis.entries (CacheStrategy.redis after)
         !! ("exact:" +:+ CacheStrategy.normalizeMessage message)
       = Some (if 12 <=? Z.of_nat n then 604800 else ttl, stringify JSON response).
Proof.
  intros Hup Hnew Hn. induction n as [|n IH]; [lia|].
  cbn [cacheRepeatedly]. destruct n as [|n].
  - cbn [cacheRepeatedly JS.bind].
    destruct (cacheResponse_counts JSON this message response ttl 0 Hup)
      as (after & Hrun & Hup' & Hcount & Hentry); [now rewrite Hnew|].
    exists after. repeat split; assumption.
  - destruct IH as (state & Hrun & Hup' & Hcount & _); [lia|].
    rewrite Hrun. cbn [JS.bind].
    destruct (cacheResponse_counts JSON state message response ttl
                (Z.of_nat (S n)) Hup')
      as (after & Hrun' & Hup'' & Hcount' & Hentry); [now rewrite Hcount|].
    exists after. split; [exact Hrun'|]. split; [exact Hup''|]. split.
    + rewrite Hcount'. f_equal. lia.
    + rewrite Hentry. do 2 f_equal.
      destruct (Z.gtb_spec (Z.of_nat (S n)) 10), (Z.leb_spec 12 (Z.of_nat (S (S n))));
        reflexivity || lia.
Qed.

Lemma cacheRepeatedly_extends_popular_witness :
  exists after : CacheStrategy.State,
    cacheRepeatedly jsonOfBool (CacheStrategy.mkState (Redis.mkClient ∅ true) ∅)
      "What's my Savings rate?" true 86400 12 = JS.Return after
    /\ Redis.reachable (CacheStrategy.redis after) = true
    /\ CacheStrategy.commonQuestions after !! "whats my savings rate" = Some 12
    /\ Redis.entries (CacheStrategy.redis after) !! "exact:whats my savings rate"
       = Some (604800, "true").
Proof.
  apply (cacheRepeatedly_extends_popular bool jsonOfBool
           (CacheStrategy.mkState (Redis.mkClient ∅ true) ∅)
           "What's my Savings rate?" true 86400 12).
  - reflexivity.
  - reflexivity.
  - lia.
Defined.

(** ** OpenAIService: how much history is sent *)

Lemma slice_last {A : Type} (l : list A) (k : nat) :
  (0 < k)%nat -> JS.slice l (- Z.of_nat k) None = drop (length l - k) l.
Proof.
  intros Hk.
  assert (Hneg : (- Z.of_nat k <? 0) = true) by (apply Z.ltb_lt; lia).
  unfold JS.slice, JS.relativeIndex. cbv zeta. rewrite Hneg.
  replace (Z.to_nat (Z.max (Z.of_nat (length l) + - Z.of_nat k) 0))
    with (length l - k)%nat by lia.
  apply take_ge. rewrite length_drop. lia.
Qed.

(** X19: the request holds the system prompt, then the last ten exchanges
    of the history as a user turn and an assistant turn each, in order, then
    the new message; older exchanges are left out, so it has
    2 * min(n, 10) + 2 messages. *)
Theorem formatConversationHistory_last_ten
    (systemPrompt currentMessage : string) (history : list OpenAIService.Exchange) :
  OpenAIService.formatConversationHistory systemPrompt history currentMessage
  = mkTurn system (Some systemPrompt)
      :: flat_map (fun item =>
                     [ mkTurn user (Some (OpenAIService.userText item));
                       mkTurn assistant (Some (OpenAIService.assistantText item)) ])
                  (drop (length history - 10) history)
      ++ [mkTurn user (Some currentMessage)]
  /\ length (OpenAIService.formatConversationHistory systemPrompt history
               currentMessage)
     = (2 * Nat.min (length history) 10 + 2)%nat.
Proof.
  unfold OpenAIService.formatConversationHistory. cbv zeta.
  change (-10) with (- Z.of_nat 10). rewrite slice_last by lia.
  split; [reflexivity|].
  cbn [app length]. rewrite length_app. cbn [length].
  assert (Hpairs : forall recent : list OpenAIService.Exchange,
             length (flat_map
                       (fun item =>
                          [ mkTurn user (Some (OpenAIService.userText item));
                            mkTurn assistant (Some (OpenAIService.assistantText item)) ])
                       recent)
             = (2 * length recent)%nat).
  { intros recent. induction recent as [|item recent IH]; simpl; lia. }
  rewrite Hpairs, length_drop. lia.
Qed.

(** ** ConversationService *)

Section ConversationFacts.

Import ConversationService.

Variable JSON : Json (list Entry).

(** X20: [getConversationContext] never throws. When the cache cannot be
    reached it answers the empty context and changes nothing, whatever the
    database holds. *)
Theorem getConversationContext_never_throws (this : Stores) (conversationId : string) :
  (exists after context,
     getConversationContext JSON this conversationId = JS.Return (after, context))
  /\ (Redis.reachable (redis this) = false ->
      getConversationContext JSON this conversationId = JS.Return (this, [])).
Proof.
  unfold getConversationContext, Redis.get, Redis.setex, findOne.
  destruct (Redis.reachable (redis this)) eqn:Hup; cbn [JS.bind JS.try_catch].
  - split; [|discriminate].
    destruct (Redis.truthy _) as [text|].
    + destruct (parse JSON text); cbn [JS.bind JS.try_catch]; now eexists _, _.
    + destruct (available (db this)); cbn [JS.bind JS.try_catch]; now eexists _, _.
  - split; [now eexists _, _ | reflexivity].
Qed.

(** X21: on a cache miss the context is read from the database (empty when
    the conversation is unknown) and written to the cache, so that the next
    call answers the same context from the cache alone, whatever has become
    of the database. *)
Theorem getConversationContext_fills_cache (this : Stores) (conversationId : string)
    (later : Database) :
  Redis.reachable (redis this) = true ->
  available (db this) = true ->
  Redis.entries (redis this) !! cacheKey conversationId = None ->
  let context := match conversations (db this) !! conversationId with
                 | Some doc => history doc
                 | None => []
                 end in
  stringify JSON context <> "" ->
  parse JSON (stringify JSON context) = JS.Return context ->
  exists cached : Redis.Client,
    getConversationContext JSON this conversationId
    = JS.Return (mkStores cached (db this), context)
    /\ getConversationContext JSON (mkStores cached later) conversationId
       = JS.Return (mkStores cached later, context).
Proof.
  intros Hup Hdb Hmiss context Htext Hround.
  unfold getConversationContext, Redis.get, Redis.setex, findOne.
  rewrite Hup, Hdb, Hmiss. cbn [fmap option_fmap option_map Redis.truthy
                                JS.bind JS.try_catch].
  fold context. eexists. split; [reflexivity|].
  cbn [redis Redis.reachable Redis.entries JS.bind]. rewrite lookup_insert_eq.
  cbn [fmap option_fmap option_map snd].
  destruct (stringify JSON context) eqn:E; [congruence|].
  cbn [Redis.truthy]. rewrite Hround. reflexivity.
Qed.

(** X22: saving an exchange of a conversation whose context is not in the
    cache appends it to the history in the database once, and writes a
    context to the cache that holds it twice: the context is read back from
    the database after the update, and the exchange is pushed onto it
    again. *)
Theorem saveConversation_cold_cache_duplicates (this : Stores)
    (conversationId userMessage aiResponse now updated : string) :
  Redis.reachable (redis this) = true ->
  available (db this) = true ->
  Redis.entries (redis this) !! cacheKey conversationId = None ->
  let before := match conversations (db this) !! conversationId with
                | Some doc => history doc
                | None => []
                end in
  let entry := mkEntry userMessage aiResponse now in
  exists after : Stores,
    saveConversation JSON this conversationId userMessage aiResponse now updated
    = JS.Return after
    /\ conversations (db after) !! conversationId
       = Some (mkDocument (before ++ [entry]) updated)
    /\ Redis.entries (redis after) !! cacheKey conversationId
       = Some (3600, stringify JSON (before ++ [entry; entry])).
Proof.
  intros Hup Hdb Hmiss before entry.
  unfold saveConversation, updateOne. cbv zeta. rewrite Hdb. fold before entry.
  unfold getConversationContext, Redis.get, findOne.
  cbn [redis db available conversations]. rewrite Hup, Hmiss.
  cbn [fmap option_fmap option_map Redis.truthy JS.bind].
  rewrite lookup_insert_eq. cbn [history].
  unfold Redis.setex. rewrite Hup. cbn [JS.bind JS.try_catch redis db
                                        Redis.reachable Redis.entries].
  eexists. split; [reflexivity|]. cbn [db redis conversations Redis.entries].
  split; [apply lookup_insert_eq|].
  rewrite lookup_insert_eq, <- app_assoc. reflexivity.
Qed.

(** X23: saving an exchange of a conversation whose context is in the cache
    appends it once to the history in the database and once to the cached
    context. *)
Theorem saveConversation_warm_cache_appends (this : Stores)
    (conversationId userMessage aiResponse now updated text : string)
    (expiry : Z) (cached : list Entry) :
  Redis.reachable (redis this) = true ->
  available (db this) = true ->
  Redis.entries (redis this) !! cacheKey conversationId = Some (expiry, text) ->
  text <> "" ->
  parse JSON text = JS.Return cached ->
  let before := match conversations (db this) !! conversationId with
                | Some doc => history doc
                | None => []
                end in
  let entry := mkEntry userMessage aiResponse now in
  exists after : Stores,
    saveConversation JSON this conversationId userMessage aiResponse now updated
    = JS.Return after
    /\ conversations (db after) !! conversationId
       = Some (mkDocument (before ++ [entry]) updated)
    /\ Redis.entries (redis after) !! cacheKey conversationId
       = Some (3600, stringify JSON (cached ++ [entry])).
Proof.
  intros Hup Hdb Hhit Htext Hparse before entry.
  unfold saveConversation, updateOne. cbv zeta. rewrite Hdb. fold before entry.
  unfold getConversationContext, Redis.get.
  cbn [redis db]. rewrite Hup, Hhit.
  cbn [fmap option_fmap option_map snd].
  destruct text as [|c text]; [congruence|]. cbn [Redis.truthy JS.bind].
  rewrite Hparse. cbn [JS.bind JS.try_catch redis db].
  unfold Redis.setex. rewrite Hup.
  eexists. split; [reflexivity|]. cbn [db redis conversations Redis.entries].
  split; apply lookup_insert_eq.
Qed.

End ConversationFacts.

Lemma renderHistory_not_empty (context : list ConversationService.Entry) :
  renderHistory context <> "".
Proof. unfold renderHistory. rewrite append_cons. discriminate. Qed.

Lemma getConversationContext_fills_cache_witness :
  let entry := ConversationService.mkEntry "Hello" "Hi, how can I help?"
                 "2026-11-02T10:00:00.000Z" in
  let database :=
    ConversationService.mkDatabase
      (<["c-42" := ConversationService.mkDocument [entry] "2026-11-02"]> ∅) true in
  let this := ConversationService.mkStores (Redis.mkClient ∅ true) database in
  exists cached : Redis.Client,
    ConversationService.getConversationContext (jsonOfHistories [[entry]]) this "c-42"
    = JS.Return (ConversationService.mkStores cached database, [entry])
    /\ ConversationService.getConversationContext (jsonOfHistories [[entry]])
         (ConversationService.mkStores cached
            (ConversationService.mkDatabase ∅ false)) "c-42"
       = JS.Return (ConversationService.mkStores cached
                      (ConversationService.mkDatabase ∅ false), [entry]).
Proof.
  cbv zeta.
  exact (getConversationContext_fills_cache
           (jsonOfHistories
              [[ConversationService.mkEntry "Hello" "Hi, how can I help?"
                  "2026-11-02T10:00:00.000Z"]])
           (ConversationService.mkStores (Redis.mkClient ∅ true)
              (ConversationService.mkDatabase
                 (<["c-42" := ConversationService.mkDocument
                                [ConversationService.mkEntry "Hello"
                                   "Hi, how can I help?" "2026-11-02T10:00:00.000Z"]
                                "2026-11-02"]> ∅) true))
           "c-42" (ConversationService.mkDatabase ∅ false)
           eq_refl eq_refl eq_refl (renderHistory_not_empty _) eq_refl).
Defined.

Lemma saveConversation_cold_cache_duplicates_witness :
  let entry := ConversationService.mkEntry "Hello" "Hi, how can I help?"
                 "2026-11-02T10:00:00.000Z" in
  exists after : ConversationService.Stores,
    ConversationService.saveConversation (jsonOfHistories [])
      (ConversationService.mkStores (Redis.mkClient ∅ true)
         (ConversationService.mkDatabase ∅ true))
      "c-42" "Hello" "Hi, how can I help?" "2026-11-02T10:00:00.000Z" "2026-11-02"
    = JS.Return after
    /\ ConversationService.conversations (ConversationService.db after) !! "c-42"
       = Some (ConversationService.mkDocument [entry] "2026-11-02")
    /\ Redis.entries (ConversationService.redis after) !! "conversation:c-42"
       = Some (3600, renderHistory [entry; entry]).
Proof.
  cbv zeta.
  exact (saveConversation_cold_cache_duplicates (jsonOfHistories [])
           (ConversationService.mkStores (Redis.mkClient ∅ true)
              (ConversationService.mkDatabase ∅ true))
           "c-42" "Hello" "Hi, how can I help?" "2026-11-02T10:00:00.000Z"
           "2026-11-02" eq_refl eq_refl eq_refl).
Defined.

Lemma saveConversation_warm_cache_appends_witness :
  let first := ConversationService.mkEntry "Hello" "Hi, how can I help?"
                 "2026-11-02T10:00:00.000Z" in
  let second := ConversationService.mkEntry "Rates?" "About 4%."
                  "2026-11-02T10:01:00.000Z" in
  exists after : ConversationService.Stores,
    ConversationService.saveConversation (jsonOfHistories [[first]])
      (ConversationService.mkStores
         (Redis.mkClient (<["conversation:c-42" := (3600, renderHistory [first])]> ∅)
                         true)
         (ConversationService.mkDatabase
            (<["c-42" := ConversationService.mkDocument [first] "2026-11-02"]> ∅)
            true))
      "c-42" "Rates?" "About 4%." "2026-11-02T10:01:00.000Z" "2026-11-02"
    = JS.Return after
    /\ ConversationService.conversations (ConversationService.db after) !! "c-42"
       = Some (ConversationService.mkDocument [first; second] "2026-11-02")
    /\ Redis.entries (ConversationService.redis after) !! "conversation:c-42"
       = Some (3600, renderHistory [first; second]).
Proof.
  cbv zeta.
  exact (saveConversation_warm_cache_appends
           (jsonOfHistories
              [[ConversationService.mkEntry "Hello" "Hi, how can I help?"
                  "2026-11-02T10:00:00.000Z"]])
           (ConversationService.mkStores
              (Redis.mkClient
                 (<["conversation:c-42" :=
                      (3600, renderHistory
                               [ConversationService.mkEntry "Hello"
                                  "Hi, how can I help?" "2026-11-02T10:00:00.000Z"])]> ∅)
                 true)
              (ConversationService.mkDatabase
                 (<["c-42" := ConversationService.mkDocument
                                [ConversationService.mkEntry "Hello"
                                   "Hi, how can I help?" "2026-11-02T10:00:00.000Z"]
                                "2026-11-02"]> ∅)
                 true))
           "c-42" "Rates?" "About 4%." "2026-11-02T10:01:00.000Z" "2026-11-02"
           (renderHistory [ConversationService.mkEntry "Hello" "Hi, how can I help?"
                             "2026-11-02T10:00:00.000Z"])
           3600
           [ConversationService.mkEntry "Hello" "Hi, how can I help?"
              "2026-11-02T10:00:00.000Z"]
           eq_refl eq_refl eq_refl (renderHistory_not_empty _) eq_refl).
Defined.

(** ** MetricsService *)

Lemma recordAll_invariant (limit : float)
    (requests : list (float * N * float * bool)) (m : MetricsService.Metrics) :
  let after := MetricsService.recordAll m limit requests in
  MetricsService.requestCount after
  = (MetricsService.requestCount m + N.of_nat (length requests))%N
  /\ length (MetricsService.responseTime after)
     = (length (MetricsService.responseTime m) + length requests)%nat
  /\ (MetricsService.errorCount after
      <= MetricsService.errorCount m + N.of_nat (length requests))%N.
Proof.
  cbv zeta. revert m.
  induction requests as [|[[[elapsed tokens] cost] failed] rest IH]; intros m.
  - cbn. repeat split; lia.
  - unfold MetricsService.recordAll in *. cbn [fold_left].
    destruct (IH (fst (MetricsService.recordRequest m limit elapsed tokens cost failed)))
      as (Hcount & Htimes & Herrors).
    rewrite Hcount, Htimes.
    cbn [MetricsService.recordRequest fst MetricsService.requestCount
         MetricsService.responseTime MetricsService.errorCount] in *.
    rewrite length_app. cbn [length].
    repeat split; try lia. destruct failed; lia.
Qed.

(** X24: starting from new metrics, after any series of recorded requests
    the request count is the number of requests, one response time is kept
    per request, and the error count never exceeds the request count. *)
Theorem recordAll_counts (limit : float)
    (requests : list (float * N * float * bool)) :
  let after := MetricsService.recordAll MetricsService.constructor limit requests in
  MetricsService.requestCount after = N.of_nat (length requests)
  /\ length (MetricsService.responseTime after) = length requests
  /\ (MetricsService.errorCount after <= MetricsService.requestCount after)%N.
Proof.
  cbv zeta.
  destruct (recordAll_invariant limit requests MetricsService.constructor)
    as (Hcount & Htimes & Herrors).
  rewrite Hcount, Htimes. cbn in *. repeat split; lia.
Qed.

(** ** HealthService *)

(** X25: [checkHealth] never reports "healthy": the uptime is one of the
    values it tests, and a number has no [status]. *)
Theorem checkHealth_never_healthy
    (checkOpenAI checkDatabase checkCache checkMemory : JS.Completion Error string)
    (uptime : float) (now : string) (health : HealthService.Health) :
  HealthService.checkHealth checkOpenAI checkDatabase checkCache checkMemory
    uptime now = JS.Return health ->
  HealthService.status health = "unhealthy".
Proof.
  unfold HealthService.checkHealth.
  destruct checkOpenAI as [openai|]; [|discriminate].
  destruct checkDatabase as [database|]; [|discriminate].
  destruct checkCache as [cache|]; [|discriminate].
  destruct checkMemory as [memory|]; [|discriminate].
  cbn [JS.bind]. cbv zeta. intros [= <-]. cbn [HealthService.status forallb snd
                                               HealthService.statusOf].
  now rewrite !andb_false_r.
Qed.

Lemma checkHealth_never_healthy_witness :
  exists health : HealthService.Health,
    HealthService.checkHealth (JS.Return "healthy") (JS.Return "healthy")
      (JS.Return "healthy") (JS.Return "healthy") 12.5 "2026-11-02T10:00:00.000Z"
    = JS.Return health
    /\ HealthService.status health = "unhealthy".
Proof.
  eexists. split; [reflexivity|].
  apply (checkHealth_never_healthy (JS.Return "healthy") (JS.Return "healthy")
           (JS.Return "healthy") (JS.Return "healthy") 12.5
           "2026-11-02T10:00:00.000Z").
  reflexivity.
Defined.

(** ** AlertSystem *)

Section CooldownFacts.

Import AlertSystem.

Lemma sendAlertIfNotCooling_suppressed (this : State) (now last : Z) (alert : Alert) :
  alertCooldowns this !! cooldownKey alert = Some last ->
  last <> 0 -> now - last <= cooldownPeriod alert ->
  sendAlertIfNotCooling this now alert = this.
Proof.
  intros Hlast Hnonzero Hwithin. unfold sendAlertIfNotCooling. cbv zeta.
  rewrite Hlast. destruct last as [|p|p]; [congruence| |];
    now replace (_ >? cooldownPeriod alert) with false
      by (symmetry; rewrite Z.gtb_ltb; apply Z.ltb_ge; lia).
Qed.

Lemma raiseAt_suppressed (times : list Z) (this : State) (last : Z) (alert : Alert) :
  alertCooldowns this !! cooldownKey alert = Some last ->
  last <> 0 ->
  Forall (fun now => now - last <= cooldownPeriod alert) times ->
  raiseAt this times alert = this.
Proof.
  intros Hlast Hnonzero. unfold raiseAt.
  induction 1 as [|now times Hnow _ IH]; [reflexivity|]. cbn [fold_left].
  now rewrite (sendAlertIfNotCooling_suppressed this now last alert).
Qed.

End CooldownFacts.

(** X26: a new alert system sends the first alert of a type and severity,
    and none of the alerts of that type and severity raised within the
    cooldown period after it: 30 minutes for a critical alert, one hour for
    any other. *)
Theorem raiseAt_sends_once_per_cooldown (first : Z) (later : list Z)
    (alert : AlertSystem.Alert) :
  first <> 0 ->
  Forall (fun now => now - first <= AlertSystem.cooldownPeriod alert) later ->
  AlertSystem.sent (AlertSystem.raiseAt AlertSystem.constructor (first :: later) alert)
  = [alert].
Proof.
  intros Hnonzero Hwithin. unfold AlertSystem.raiseAt. cbn [fold_left].
  change (fold_left _ later ?state) with (AlertSystem.raiseAt state later alert).
  rewrite (raiseAt_suppressed later _ first alert); [reflexivity | | exact Hnonzero
                                                     | exact Hwithin].
  unfold AlertSystem.sendAlertIfNotCooling, AlertSystem.constructor. cbv zeta.
  cbn [AlertSystem.alertCooldowns]. rewrite lookup_empty.
  cbn [AlertSystem.alertCooldowns]. apply lookup_insert_eq.
Qed.

Lemma raiseAt_sends_once_per_cooldown_witness :
  let alert := AlertSystem.mkAlert "cost" "Daily cost threshold exceeded"
                 120 "critical" in
  AlertSystem.sent
    (AlertSystem.raiseAt AlertSystem.constructor
       [1793613600000; 1793614200000; 1793615400000] alert)
  = [alert].
Proof.
  cbv zeta.
  apply (raiseAt_sends_once_per_cooldown 1793613600000
           [1793614200000; 1793615400000]
           (AlertSystem.mkAlert "cost" "Daily cost threshold exceeded" 120 "critical")).
  - discriminate.
  - repeat constructor; vm_compute; discriminate.
Defined.

(** After the cooldown period the alert is sent again. *)
Lemma raiseAt_sends_again_after_cooldown :
  let alert := AlertSystem.mkAlert "cost" "Daily cost threshold exceeded"
                 120 "critical" in
  AlertSystem.sent
    (AlertSystem.raiseAt AlertSystem.constructor
       [1793613600000; 1793615400000; 1793615400001] alert)
  = [alert; alert].
Proof. cbv zeta. vm_compute. reflexivity. Qed.

(** ** UsageAnalytics *)

(** X27: on a day without usage records the aggregation is empty and
    [generateDailyReport] throws instead of reporting an empty day; on any
    other day it reports the first document of the aggregation with at most
    two recommendations, the one about cost exactly when the total cost is
    above 30 and the one about tokens exactly when the average per request
    is above 1000. *)
Theorem generateDailyReport_empty_day_throws (today : string)
    (first : UsageAnalytics.Summary) (rest : list UsageAnalytics.Summary) :
  (exists error, UsageAnalytics.generateDailyReport today (JS.Return [])
                 = JS.Throw error)
  /\ exists advice : list UsageAnalytics.Recommendation,
       UsageAnalytics.generateDailyReport today (JS.Return (first :: rest))
       = JS.Return (UsageAnalytics.mkReport today (Some first) advice)
       /\ (length advice <= 2)%nat
       /\ (UsageAnalytics.cost ∈ map UsageAnalytics.kind advice
           <-> UsageAnalytics.gtb (UsageAnalytics.totalCost first) 30 = true)
       /\ (UsageAnalytics.optimization ∈ map UsageAnalytics.kind advice
           <-> UsageAnalytics.gtb (UsageAnalytics.avgTokensPerRequest first) 1000
               = true).
Proof.
  split; [now eexists|].
  unfold UsageAnalytics.generateDailyReport, UsageAnalytics.generateRecommendations.
  cbn [JS.bind head]. cbv zeta.
  eexists. split; [reflexivity|].
  destruct (UsageAnalytics.gtb (UsageAnalytics.avgTokensPerRequest first) 1000),
           (UsageAnalytics.gtb (UsageAnalytics.totalCost first) 30);
    cbn [app map length UsageAnalytics.kind];
    (split; [lia|]); split; split;
      try reflexivity; try discriminate;
      rewrite ?elem_of_cons, ?elem_of_nil; intuition discriminate.
Qed.

(** ** ConversationService: summarizeConversation *)

(** X28: what [summarizeConversation] returns has at most 20 elements, so
    summarizing it again, with whatever summary generator, returns it
    unchanged. A history of at most 20 elements is returned as it is; a
    longer one is returned as one summary turn, made from all but its last
    ten elements, followed by those ten. *)
Theorem summarizeConversation_settles
    (generateSummary again : list ConversationService.Item -> JS.Completion Error string)
    (history result : list ConversationService.Item) :
  ConversationService.summarizeConversation generateSummary history
  = JS.Return result ->
  (length result <= 20)%nat
  /\ ConversationService.summarizeConversation again result = JS.Return result
  /\ ((length history <= 20)%nat -> result = history)
  /\ ((20 < length history)%nat ->
      exists summary,
        generateSummary (take (length history - 10) history) = JS.Return summary
        /\ result
           = ConversationService.SummaryTurn
               ("Previous conversation summary: " +:+ summary)
             :: drop (length history - 10) history).
Proof.
  unfold ConversationService.summarizeConversation.
  destruct (Z.of_nat (length history) >? 20) eqn:Hlong.
  - rewrite Z.gtb_ltb in Hlong. apply Z.ltb_lt in Hlong.
    destruct (slice_split history 10) as [Holder Hrecent]; [lia|].
    cbv zeta. change (-10) with (- Z.of_nat 10). rewrite Holder, Hrecent.
    destruct (generateSummary _) as [summary|] eqn:Hsummary; [|discriminate].
    cbn [JS.bind]. intros [= <-].
    assert (Hlen : length (ConversationService.SummaryTurn
                             ("Previous conversation summary: " +:+ summary)
                           :: drop (length history - 10) history) = 11%nat)
      by (cbn [length]; rewrite length_drop; lia).
    split; [lia|]. split.
    + now replace (Z.of_nat (length _) >? 20) with false
        by (rewrite Hlen; reflexivity).
    + split; [lia|]. intros _. now exists summary.
  - rewrite Z.gtb_ltb in Hlong. apply Z.ltb_ge in Hlong. intros [= <-].
    split; [lia|]. split.
    + now replace (Z.of_nat (length history) >? 20) with false
        by (symmetry; rewrite Z.gtb_ltb; apply Z.ltb_ge; lia).
    + split; [reflexivity | lia].
Qed.

Lemma summarizeConversation_settles_witness :
  let exchange := ConversationService.Saved
                    (ConversationService.mkEntry "Rates?" "About 4%."
                       "2026-11-02T10:01:00.000Z") in
  let result := ConversationService.SummaryTurn
                  "Previous conversation summary: rates" :: repeat exchange 10 in
  (length result <= 20)%nat
  /\ ConversationService.summarizeConversation (fun _ => JS.Throw (mkError "unused"))
       result = JS.Return result.
Proof.
  cbv zeta.
  destruct (summarizeConversation_settles
              (fun _ => JS.Return "rates")
              (fun _ => JS.Throw (mkError "unused"))
              (repeat (ConversationService.Saved
                         (ConversationService.mkEntry "Rates?" "About 4%."
                            "2026-11-02T10:01:00.000Z")) 21)
              (ConversationService.SummaryTurn "Previous conversation summary: rates"
                 :: repeat (ConversationService.Saved
                              (ConversationService.mkEntry "Rates?" "About 4%."
                                 "2026-11-02T10:01:00.000Z")) 10)
              eq_refl) as (Hlen & Hagain & _).
  split; [exact Hlen | exact Hagain].
Defined.

(** ** CacheService: keys can be read back *)

Section KeyRoundTrip.

Lemma digit_facts (n : Z) :
  0 <= n < 64 ->
  CacheService.digit n = String (digitChar n) ""
  /\ digitValue (digitChar n) = n
  /\ Ascii.eqb (digitChar n) "=" = false.
Proof.
  intros Hn.
  assert (Hall : forallb
                   (fun k : nat =>
                      String.eqb (CacheService.digit (Z.of_nat k))
                                 (String (digitChar (Z.of_nat k)) "")
                      && (digitValue (digitChar (Z.of_nat k)) =? Z.of_nat k)
                      && negb (Ascii.eqb (digitChar (Z.of_nat k)) "="))
                   (seq 0 64) = true) by (vm_compute; reflexivity).
  rewrite forallb_forall in Hall.
  assert (Hin : In (Z.to_nat n) (seq 0 64)) by (apply in_seq; lia).
  specialize (Hall _ Hin). rewrite Z2Nat.id in Hall by lia.
  apply andb_true_iff in Hall as [Hall H3].
  apply andb_true_iff in Hall as [H1 H2].
  apply String.eqb_eq in H1. apply Z.eqb_eq in H2. apply negb_true_iff in H3.
  auto.
Qed.

Lemma base64_group (a b c : Z) (rest : list Z) :
  0 <= a < 256 -> 0 <= b < 256 -> 0 <= c < 256 ->
  base64Decode (CacheService.base64 (a :: b :: c :: rest))
  = a :: b :: c :: base64Decode (CacheService.base64 rest).
Proof.
  intros Ha Hb Hc. cbn [CacheService.base64].
  destruct (digit_facts (a / 4)) as (-> & V1 & _);
    [Z.to_euclidean_division_equations; lia|].
  destruct (digit_facts (a mod 4 * 16 + b / 16)) as (-> & V2 & _);
    [Z.to_euclidean_division_equations; lia|].
  destruct (digit_facts (b mod 16 * 4 + c / 64)) as (-> & V3 & E3);
    [Z.to_euclidean_division_equations; lia|].
  destruct (digit_facts (c mod 64)) as (-> & V4 & E4);
    [Z.to_euclidean_division_equations; lia|].
  rewrite !append_cons, !append_nil. cbn [base64Decode]. cbv zeta.
  rewrite E3, E4, V1, V2, V3, V4. f_equal; [|f_equal; [|f_equal]];
    Z.to_euclidean_division_equations; lia.
Qed.

Lemma base64_roundtrip_upto (n : nat) (bytes : list Z) :
  (length bytes <= n)%nat ->
  Forall (fun b => 0 <= b < 256) bytes ->
  base64Decode (CacheService.base64 bytes) = bytes.
Proof.
  revert bytes. induction n as [|n IH]; intros bytes Hlen Hbytes.
  - destruct bytes; [reflexivity | simpl in Hlen; lia].
  - destruct bytes as [|a [|b [|c rest]]]; [reflexivity | | |].
    + apply Forall_cons_1 in Hbytes as [Ha _]. cbn [CacheService.base64].
      destruct (digit_facts (a / 4)) as (-> & V1 & _);
        [Z.to_euclidean_division_equations; lia|].
      destruct (digit_facts (a mod 4 * 16)) as (-> & V2 & _);
        [Z.to_euclidean_division_equations; lia|].
      rewrite !append_cons, !append_nil. cbn [base64Decode]. cbv zeta.
      change (Ascii.eqb "=" "=") with true. cbv iota. rewrite V1, V2.
      f_equal. Z.to_euclidean_division_equations; lia.
    + apply Forall_cons_1 in Hbytes as [Ha Hbytes].
      apply Forall_cons_1 in Hbytes as [Hb _]. cbn [CacheService.base64].
      destruct (digit_facts (a / 4)) as (-> & V1 & _);
        [Z.to_euclidean_division_equations; lia|].
      destruct (digit_facts (a mod 4 * 16 + b / 16)) as (-> & V2 & _);
        [Z.to_euclidean_division_equations; lia|].
      destruct (digit_facts (b mod 16 * 4)) as (-> & V3 & E3);
        [Z.to_euclidean_division_equations; lia|].
      rewrite !append_cons, !append_nil. cbn [base64Decode]. cbv zeta.
      rewrite E3. change (Ascii.eqb "=" "=") with true. cbv iota.
      rewrite V1, V2, V3.
      f_equal; [|f_equal]; Z.to_euclidean_division_equations; lia.
    + apply Forall_cons_1 in Hbytes as [Ha Hbytes].
      apply Forall_cons_1 in Hbytes as [Hb Hbytes].
      apply Forall_cons_1 in Hbytes as [Hc Hbytes].
      rewrite base64_group by assumption. rewrite IH; [reflexivity | | exact Hbytes].
      simpl in Hlen. lia.
Qed.

Lemma code_bounded (c : ascii) : 0 <= JS.code c < 256.
Proof.
  unfold JS.code. pose proof (N_ascii_bounded c). lia.
Qed.

Lemma utf8_bytes (text : string) :
  Forall (fun b => 0 <= b < 256) (CacheService.utf8 text).
Proof.
  induction text as [|c r IH]; [constructor|]. cbn [CacheService.utf8].
  pose proof (code_bounded c). destruct (JS.code c <? 128).
  - now constructor.
  - repeat constructor; try exact IH; Z.to_euclidean_division_equations; lia.
Qed.

Lemma utf8_roundtrip (text : string) : utf8Decode (CacheService.utf8 text) = text.
Proof.
  induction text as [|c r IH]; [reflexivity|]. cbn [CacheService.utf8].
  pose proof (code_bounded c) as Hc.
  assert (Hback : ascii_of_N (Z.to_N (JS.code c)) = c)
    by (unfold JS.code; rewrite N2Z.id; apply ascii_N_embedding).
  destruct (JS.code c <? 128) eqn:Hsmall.
  - cbn [utf8Decode]. now rewrite Hsmall, Hback, IH.
  - apply Z.ltb_ge in Hsmall. cbn [utf8Decode].
    replace (192 + JS.code c / 64 <? 128) with false
      by (symmetry; apply Z.ltb_ge; Z.to_euclidean_division_equations; lia).
    replace ((192 + JS.code c / 64 - 192) * 64 + (128 + JS.code c mod 64 - 128))
      with (JS.code c) by (Z.to_euclidean_division_equations; lia).
    now rewrite Hback, IH.
Qed.

End KeyRoundTrip.

(** X29: a cache key determines the normalized message it was made from:
    decoding its base64 part as UTF-8 gives the message lower-cased,
    stripped and trimmed, so two messages share a key exactly when they
    normalize to the same text. *)
Theorem createCacheKey_reads_back (first second : string) :
  let normalized := fun message =>
    JS.trim (JS.stripNonWordNonSpace (JS.toLowerCase message)) in
  CacheService.createCacheKey first
  = "response:" +:+ CacheService.base64 (CacheService.utf8 (normalized first))
  /\ utf8Decode (base64Decode (CacheService.base64 (CacheService.utf8 (normalized first))))
     = normalized first
  /\ (CacheService.createCacheKey first = CacheService.createCacheKey second
      <-> normalized first = normalized second).
Proof.
  cbv zeta.
  assert (Hback : forall text,
             utf8Decode (base64Decode (CacheService.base64 (CacheService.utf8 text)))
             = text).
  { intros text.
    rewrite (base64_roundtrip_upto (length (CacheService.utf8 text)));
      [apply utf8_roundtrip | lia | apply utf8_bytes]. }
  split; [reflexivity|]. split; [apply Hback|].
  unfold CacheService.createCacheKey. cbv zeta. split.
  - intros Hkeys. apply (inj (String.app "response:")) in Hkeys.
    rewrite <- (Hback (JS.trim (JS.stripNonWordNonSpace (JS.toLowerCase first)))).
    rewrite Hkeys. apply Hback.
  - now intros ->.
Qed.

(** ** Cache keys beyond U+00FF *)

Section WideFacts.

Lemma units_cons (c : ascii) (s : string) :
  Utf16.units (String c s) = JS.code c :: Utf16.units s.
Proof. reflexivity. Qed.

Lemma isWordUnit_code (c : ascii) : Utf16.isWordUnit (JS.code c) = JS.isWordChar c.
Proof. reflexivity. Qed.

Lemma isSpaceUnit_code (c : ascii) : Utf16.isSpaceUnit (JS.code c) = JS.isSpaceChar c.
Proof. destruct c as [[] [] [] [] [] [] [] []]; reflexivity. Qed.

Lemma lowerUnit_code (c : ascii) :
  Utf16.lowerUnit (JS.code c) = Some [JS.code (JS.lowerChar c)].
Proof.
  unfold Utf16.lowerUnit. pose proof (code_bounded c) as Hc.
  replace ((0 <=? JS.code c) && (JS.code c <? 256)) with true
    by (symmetry; apply andb_true_iff; split; [apply Z.leb_le | apply Z.ltb_lt]; lia).
  unfold JS.code at 2. now rewrite N2Z.id, ascii_N_embedding.
Qed.

Lemma toLowerCase_units (s : string) :
  Utf16.toLowerCase (Utf16.units s) = Some (Utf16.units (JS.toLowerCase s)).
Proof.
  induction s as [|c r IH]; [reflexivity|].
  rewrite units_cons. cbn [Utf16.toLowerCase]. now rewrite lowerUnit_code, IH.
Qed.

Lemma strip_units (s : string) :
  Utf16.stripNonWordNonSpace (Utf16.units s)
  = Utf16.units (JS.stripNonWordNonSpace s).
Proof.
  unfold Utf16.stripNonWordNonSpace, JS.stripNonWordNonSpace.
  induction s as [|c r IH]; [reflexivity|].
  rewrite units_cons. cbn [List.filter JS.filterString].
  rewrite isWordUnit_code, isSpaceUnit_code, IH.
  now destruct (JS.isWordChar c || JS.isSpaceChar c).
Qed.

Lemma collapseFrom_units (inRun : bool) (s : string) :
  Utf16.collapseFrom inRun (Utf16.units s) = Utf16.units (JS.collapseFrom inRun s).
Proof.
  revert inRun. induction s as [|c r IH]; intros inRun; [reflexivity|].
  rewrite units_cons. cbn [Utf16.collapseFrom JS.collapseFrom].
  rewrite isSpaceUnit_code. destruct (JS.isSpaceChar c).
  - destruct inRun; [apply IH|]. rewrite units_cons, IH. reflexivity.
  - now rewrite units_cons, IH.
Qed.

Lemma trimStart_units (s : string) :
  Utf16.trimStart (Utf16.units s) = Utf16.units (JS.trimStart s).
Proof.
  induction s as [|c r IH]; [reflexivity|].
  rewrite units_cons. cbn [Utf16.trimStart JS.trimStart].
  rewrite isSpaceUnit_code. now destruct (JS.isSpaceChar c).
Qed.

Lemma trimEnd_units (s : string) :
  Utf16.trimEnd (Utf16.units s) = Utf16.units (JS.trimEnd s).
Proof.
  induction s as [|c r IH]; [reflexivity|].
  rewrite units_cons. cbn [Utf16.trimEnd JS.trimEnd].
  rewrite isSpaceUnit_code, IH.
  destruct (JS.trimEnd r) as [|d r']; [now destruct (JS.isSpaceChar c)|].
  now rewrite !units_cons.
Qed.

(** On a message of code units below U+0100 the normalization on code units
    is [CacheStrategy.normalizeMessage]. *)
Lemma normalizeMessage_units (message : string) :
  Utf16.normalizeMessage (Utf16.units message)
  = Some (Utf16.units (CacheStrategy.normalizeMessage message)).
Proof.
  unfold Utf16.normalizeMessage, CacheStrategy.normalizeMessage, Utf16.trim,
    JS.trim, JS.collapseWhitespace.
  now rewrite toLowerCase_units, strip_units, collapseFrom_units,
    trimStart_units, trimEnd_units.
Qed.

End WideFacts.

